(** * Census ETL pipeline: a shallow embedding of [census_data.py] and
      [sql_database.py]

    The development follows the two source files.

    - [PyStr]: the Python string primitives the code calls
      ([str.strip], [str.lower], [in], [str.split], [str.join],
      [str.endswith]) and [os.path.splitext].
    - [Pandas]: the part of the pandas frame interface that
      [census_data.py] uses, over frames whose column labels are pairwise
      distinct: a frame is an ordered list of labels and one record (a
      finite map from label to cell) per row.
    - [Census]: [census_data.py].
    - [Sqlite]: the behaviour of the database connection that
      [sql_database.py] relies on.
    - [Loader]: [sql_database.py].

    Conventions. A character is a code point below 256.  A cell holds what
    the Census API can return in a JSON array (a string or [null]) or what
    pandas fills in for a missing value ([NaN]). *)

From Stdlib Require Import ZArith Ascii String List.
From stdpp Require Import base tactics option list strings gmap.

Local Open Scope string_scope.
Local Open Scope list_scope.

(** ** Python exceptions and results *)

Inductive exn : Type :=
  | KeyError (label : string)
  | ValueError
  | TypeError
  | StopIteration
  | IntegrityError
  | OperationalError.

Inductive result (A : Type) : Type :=
  | Ok (a : A)
  | Raise (e : exn).
Arguments Ok {A} a.
Arguments Raise {A} e.

#[global] Instance result_ret : MRet result := fun A a => Ok a.

#[global] Instance result_bind : MBind result := fun A B k m =>
  match m with
  | Ok a => k a
  | Raise e => Raise e
  end.

Definition raises {A : Type} (m : result A) : Prop :=
  exists e, m = Raise e.

Definition returns {A : Type} (m : result A) : Prop :=
  exists a, m = Ok a.

(** ** Python strings *)

Module PyStr.

Definition code (c : ascii) : N := N_of_ascii c.

(** [str.isspace] on one character below 256: TAB..CR, FS..US, SPACE,
    NEL and NBSP. *)
Definition is_space (c : ascii) : bool :=
  let n := code c in
  ((9 <=? n) && (n <=? 13) || (28 <=? n) && (n <=? 32)
   || (n =? 133) || (n =? 160))%N.

(** [str.lower] on one character below 256: A..Z and the Latin-1 capitals
    (all of 192..222 but the multiplication sign 215) move up by 32. *)
Definition lower_char (c : ascii) : ascii :=
  let n := code c in
  if ((65 <=? n) && (n <=? 90)
      || (192 <=? n) && (n <=? 222) && negb (n =? 215))%N
  then ascii_of_N (n + 32) else c.

Fixpoint lower (s : string) : string :=
  match s with
  | EmptyString => EmptyString
  | String c s' => String (lower_char c) (lower s')
  end.

Fixpoint lstrip (s : string) : string :=
  match s with
  | EmptyString => EmptyString
  | String c s' => if is_space c then lstrip s' else s
  end.

Fixpoint rstrip (s : string) : string :=
  match s with
  | EmptyString => EmptyString
  | String c s' =>
      match rstrip s' with
      | EmptyString => if is_space c then EmptyString else String c EmptyString
      | r => String c r
      end
  end.

(** [s.strip()] *)
Definition strip (s : string) : string := rstrip (lstrip s).

(** [s.startswith(p)] *)
Fixpoint startswith (p s : string) : bool :=
  match p, s with
  | EmptyString, _ => true
  | String a p', String b s' => if Ascii.eqb a b then startswith p' s' else false
  | String _ _, EmptyString => false
  end.

(** [sub in s] *)
Fixpoint contains (sub s : string) : bool :=
  startswith sub s ||
  match s with
  | EmptyString => false
  | String _ s' => contains sub s'
  end.

(** [s.endswith(p)] *)
Definition endswith (p s : string) : bool :=
  let n := String.length s in
  let k := String.length p in
  (k <=? n)%nat && String.eqb (String.substring (n - k) k s) p.

(** [sep.join(parts)] *)
Fixpoint join (sep : string) (parts : list string) : string :=
  match parts with
  | [] => EmptyString
  | [p] => p
  | p :: ps => p +:+ sep +:+ join sep ps
  end.

(** The separator of the combined name field. *)
Definition name_sep : string := "; ".

(** [s.split("; ")]: the parts between the successive occurrences of the
    separator, found from the left and not overlapping. *)
Definition cons_char (c : ascii) (parts : list string) : list string :=
  match parts with
  | p :: ps => String c p :: ps
  | [] => [String c EmptyString]
  end.

Fixpoint split_name (s : string) : list string :=
  match s with
  | EmptyString => [EmptyString]
  | String c rest =>
      match rest with
      | String d rest' =>
          if Ascii.eqb c ";" && Ascii.eqb d " "
          then EmptyString :: split_name rest'
          else cons_char c (split_name rest)
      | EmptyString => cons_char c (split_name rest)
      end
  end.

(** [s.rfind(c)] for one character, [None] standing for [-1]. *)
Fixpoint rfind (c : ascii) (s : string) : option nat :=
  match s with
  | EmptyString => None
  | String a s' =>
      match rfind c s' with
      | Some i => Some (S i)
      | None => if Ascii.eqb a c then Some 0%nat else None
      end
  end.

Fixpoint all_dots (s : string) : bool :=
  match s with
  | EmptyString => true
  | String a s' => Ascii.eqb a "." && all_dots s'
  end.

(** [os.path.splitext(p)[0]] on a file name (no directory separator):
    the name up to its last dot, unless only dots come before it. *)
Definition splitext_root (p : string) : string :=
  match rfind "." p with
  | Some i =>
      let stem := String.substring 0 i p in
      if all_dots stem then p else stem
  | None => p
  end.

End PyStr.

(** ** The pandas frame interface used by [census_data.py] *)

Module Pandas.

(** A cell of a frame of dtype [object]: a Python string, [None] (a JSON
    [null], or the padding of a short row) or [NaN] (a missing value). *)
Inductive cell : Type :=
  | Str (s : string)
  | PyNone
  | NaN.

#[global] Instance cell_eq_dec : EqDecision cell.
Proof. solve_decision. Defined.

(** A frame: its column labels in order, and one record per row.  The
    labels of a frame are pairwise distinct; a frame in which a label
    repeats is not represented. *)
Record DataFrame : Type := mkFrame {
  columns : list string;
  records : list (gmap string cell)
}.

(** The value of a record under a label. *)
Definition field (c : string) (r : gmap string cell) : cell :=
  default NaN (r !! c).

(** A record restricted to (and completed with [NaN] on) the labels
    [cols]. *)
Definition reindex (cols : list string) (r : gmap string cell)
  : gmap string cell :=
  list_to_map ((fun c => (c, field c r)) <$> cols).

(** [df.values]: the rows as lists of cells in column order, as
    [to_csv] writes them. *)
Definition values (df : DataFrame) : list (list cell) :=
  (fun r => (fun c => field c r) <$> columns df) <$> records df.

(** [pd.DataFrame(rows, columns=columns)] on a list of lists: every row
    is padded with [None] to the longest row, whose length must be the
    number of labels; no row at all gives an empty frame. *)
Definition pad_row (n : nat) (row : list cell) : list cell :=
  row ++ replicate (n - length row) PyNone.

Definition frame_of_rows (rows : list (list cell)) (cols : list string)
  : result DataFrame :=
  match rows with
  | [] => Ok (mkFrame cols [])
  | _ =>
      if decide (max_list (length <$> rows) = length cols)
      then Ok (mkFrame cols
                 ((fun row => list_to_map (zip cols (pad_row (length cols) row)))
                    <$> rows))
      else Raise ValueError
  end.

(** [df[c]] *)
Definition getitem (c : string) (df : DataFrame) : result (list cell) :=
  if decide (c ∈ columns df)
  then Ok (field c <$> records df)
  else Raise (KeyError c).

(** [df[c] = series]: an existing column is overwritten in place, a new
    one is appended. *)
Definition set_label (c : string) (cols : list string) : list string :=
  if decide (c ∈ cols) then cols else cols ++ [c].

Definition setitem (c : string) (series : list cell) (df : DataFrame)
  : result DataFrame :=
  if decide (length series = length (records df))
  then Ok (mkFrame (set_label c (columns df))
             (zip_with (fun r v => <[c := v]> r) (records df) series))
  else Raise ValueError.

(** [series.astype(str)] *)
Definition py_str (v : cell) : string :=
  match v with
  | Str s => s
  | PyNone => "None"
  | NaN => "nan"
  end.

Definition astype_str (series : list cell) : list cell :=
  (fun v => Str (py_str v)) <$> series.

(** [a + b] on two columns of dtype [object]: Python's [+] cell by cell. *)
Definition add_cell (a b : cell) : result cell :=
  match a, b with
  | Str x, Str y => Ok (Str (x +:+ y))
  | _, _ => Raise TypeError
  end.

Fixpoint series_add (a b : list cell) : result (list cell) :=
  match a, b with
  | x :: a', y :: b' =>
      v ← add_cell x y; vs ← series_add a' b'; mret (v :: vs)
  | _, _ => Ok []
  end.

(** [series.str.strip()] *)
Definition strip_cell (v : cell) : cell :=
  match v with
  | Str s => Str (PyStr.strip s)
  | _ => NaN
  end.

Definition str_strip (series : list cell) : list cell :=
  strip_cell <$> series.

(** [series.str.split("; ", expand=True)].  A string gives its parts, a
    missing value gives one [NaN]; the frame returned has as many columns
    as the longest of these ([0] for an empty series); a shorter list of
    parts is padded with [None], a missing value fills its row with
    [NaN]. *)
Definition split_parts (v : cell) : list cell :=
  match v with
  | Str s => Str <$> PyStr.split_name s
  | _ => [NaN]
  end.

Definition split_width (series : list cell) : nat :=
  max_list ((fun v => length (split_parts v)) <$> series).

Definition expand_row (w : nat) (v : cell) : list cell :=
  match v with
  | Str s => pad_row w (split_parts v)
  | _ => replicate w NaN
  end.

Definition str_split_expand (series : list cell) : list (list cell) :=
  let w := split_width series in
  (fun j => (fun v => default PyNone (expand_row w v !! j)) <$> series) <$> seq 0 w.

(** [df[[k1, ..., kn]] = frame]: the frame assigned must have as many
    columns as there are keys; its columns are then assigned in order. *)
Fixpoint setitem_each (keys : list string) (cols : list (list cell))
    (df : DataFrame) : result DataFrame :=
  match keys, cols with
  | k :: keys', c :: cols' => df' ← setitem k c df; setitem_each keys' cols' df'
  | _, _ => Ok df
  end.

Definition setitem_list (keys : list string) (cols : list (list cell))
    (df : DataFrame) : result DataFrame :=
  if decide (length cols = length keys)
  then setitem_each keys cols df
  else Raise ValueError.

(** [df.drop(columns=labels, inplace=True)] *)
Definition drop (labels : list string) (df : DataFrame) : result DataFrame :=
  match list_find (fun c => c ∉ columns df) labels with
  | Some (_, c) => Raise (KeyError c)
  | None =>
      Ok (mkFrame (filter (fun c => c ∉ labels) (columns df))
            ((fun r => foldr delete r labels) <$> records df))
  end.

(** [df.rename(columns=mapping)] with [mapping = {c: f(c) for c in
    df.columns}]. *)
Definition rename (f : string -> string) (df : DataFrame) : DataFrame :=
  mkFrame (f <$> columns df)
    ((fun r => list_to_map ((fun c => (f c, field c r)) <$> columns df))
       <$> records df).

(** [pd.concat(frames, ignore_index=True)]: the labels are those of the
    frames in order of first appearance; a frame lacking a label gets
    [NaN] under it. *)
Definition union_labels (frames : list DataFrame) : list string :=
  foldl (fun acc df => acc ++ filter (fun c => c ∉ acc) (columns df)) [] frames.

Definition concat (frames : list DataFrame) : result DataFrame :=
  match frames with
  | [] => Raise ValueError
  | _ =>
      let cols := union_labels frames in
      Ok (mkFrame cols (frames ≫= fun df => reindex cols <$> records df))
  end.

(** [df[labels]] with a list of labels. *)
Definition select (labels : list string) (df : DataFrame) : result DataFrame :=
  match list_find (fun c => c ∉ columns df) labels with
  | Some (_, c) => Raise (KeyError c)
  | None => Ok (mkFrame labels (reindex labels <$> records df))
  end.

(** [pd.merge(left, right, on=on, how="outer")].  Two keys agree when
    they are the same string or are both missing.  A label that is not a
    key and occurs on both sides gets the suffix [_x] on the left and
    [_y] on the right.  pandas returns the rows below grouped by key; the
    order of the rows of a merge is not modelled further. *)
Definition key_eq (a b : cell) : bool :=
  match a, b with
  | Str x, Str y => bool_decide (x = y)
  | Str _, _ | _, Str _ => false
  | _, _ => true
  end.

Definition same_key (on : list string) (l r : gmap string cell) : bool :=
  forallb (fun k => key_eq (field k l) (field k r)) on.

Section merge.
Context (on : list string) (left right : DataFrame).

Definition clash (c : string) : bool :=
  bool_decide (c ∉ on) && bool_decide (c ∈ columns left)
  && bool_decide (c ∈ columns right).

Definition left_label (c : string) : string :=
  if clash c then c +:+ "_x" else c.

Definition right_label (c : string) : string :=
  if clash c then c +:+ "_y" else c.

Definition right_rest : list string :=
  filter (fun c => c ∉ on) (columns right).

Definition left_part (l : gmap string cell) : gmap string cell :=
  list_to_map ((fun c => (left_label c, field c l)) <$> columns left).

Definition right_part (r : gmap string cell) : gmap string cell :=
  list_to_map ((fun c => (right_label c, field c r)) <$> right_rest).

Definition right_missing : gmap string cell :=
  list_to_map ((fun c => (right_label c, NaN)) <$> right_rest).

Definition left_of_right (r : gmap string cell) : gmap string cell :=
  list_to_map
    ((fun c => (left_label c, if bool_decide (c ∈ on) then field c r else NaN))
       <$> columns left).

Definition join_left (l : gmap string cell) : list (gmap string cell) :=
  match filter (fun r => same_key on l r = true) (records right) with
  | [] => [left_part l ∪ right_missing]
  | matches => (fun r => left_part l ∪ right_part r) <$> matches
  end.

Definition unmatched_right : list (gmap string cell) :=
  filter (fun r => Forall (fun l => same_key on l r = false) (records left))
    (records right).

Definition merge_outer : result DataFrame :=
  match list_find (fun k => k ∉ columns left) on,
        list_find (fun k => k ∉ columns right) on with
  | Some (_, k), _ | None, Some (_, k) => Raise (KeyError k)
  | None, None =>
      Ok (mkFrame
            ((left_label <$> columns left) ++ (right_label <$> right_rest))
            ((records left ≫= join_left)
             ++ ((fun r => left_of_right r ∪ right_part r) <$> unmatched_right)))
  end.
End merge.

End Pandas.

(** ** [census_data.py] *)

Module Census.
Import Pandas.

(** Census state codes of the targeted states, in the order of the
    dictionary literal. *)
Definition STATE_CODE_DICTIONARY : list (string * string) :=
  [("Illinois", "17"); ("Louisiana", "22"); ("Washington", "53");
   ("Florida", "12"); ("California", "06")].

Definition DESIRED_COLUMNS : list string :=
  ["geo_id"; "state"; "State_Name"; "county"; "County_Name"; "tract"].

(** The body of an API response, [response.json()]: a header row and the
    data rows.  (A document without a header row, on which [data_json[0]]
    raises, is not represented.) *)
Record Response : Type := mkResponse {
  header : list string;
  rows : list (list cell)
}.

Definition load_dataframe (response : Response) : result DataFrame :=
  frame_of_rows (rows response) (header response).

Definition preprocess_name_column (dataframe : DataFrame) : result DataFrame :=
  name ← getitem "NAME" dataframe;
  dataframe ← setitem_list ["Census_Tract"; "County_Name"; "State_Name"]
                (str_split_expand name) dataframe;
  dataframe ← drop ["Census_Tract"; "NAME"] dataframe;
  state_name ← getitem "State_Name" dataframe;
  dataframe ← setitem "State_Name" (str_strip state_name) dataframe;
  county_name ← getitem "County_Name" dataframe;
  dataframe ← setitem "County_Name" (str_strip county_name) dataframe;
  mret dataframe.

Definition add_geo_id (dataframe : DataFrame)
    (state_column county_column tract_column : string) : result DataFrame :=
  s ← getitem state_column dataframe;
  dataframe ← setitem state_column (astype_str s) dataframe;
  c ← getitem county_column dataframe;
  dataframe ← setitem county_column (astype_str c) dataframe;
  t ← getitem tract_column dataframe;
  dataframe ← setitem tract_column (astype_str t) dataframe;
  s ← getitem state_column dataframe;
  c ← getitem county_column dataframe;
  t ← getitem tract_column dataframe;
  sc ← series_add s c;
  geo_id ← series_add sc t;
  setitem "geo_id" geo_id dataframe.

Definition dp_dictionary : gmap string string :=
  list_to_map
    [("DP1_0078C", "white_population");
     ("DP1_0079C", "black_african_american_population");
     ("DP1_0080C", "american_indian_alaskan_native_population");
     ("DP1_0081C", "asian_population");
     ("DP1_0082C", "native_hawaiian_and_other_pacific_islander_population");
     ("DP1_0083C", "Other_race_population")].

Definition dhc_variable_dictionary : gmap string string :=
  list_to_map
    [("H12A_002N", "owner_occuppied_white");
     ("H12A_010N", "renter_occupied_white");
     ("H12B_002N", "owner_occupied_black_or_african_american");
     ("H12B_010N", "renter_occupied_black_or_african_american");
     ("H12C_002N", "owner_occuppied_american_indian_alaska_native");
     ("H12C_010N", "renter_occupied_american_indian_alaska_native");
     ("H12D_002N", "owner_occupied_asian");
     ("H12D_010N", "renter_occupied_asian");
     ("H12E_002N", "owner_occupied_native_hawaiian");
     ("H12E_010N", "renter_occupied_native_hawaiian");
     ("H12F_002N", "owner_occuppied_other_race");
     ("H12F_010N", "renter_occuppied_other_race")].

Definition cre_dictionary : gmap string string :=
  list_to_map
    [("PRED0_E",
      "estimated_number_of_individuals_with_zero_components_of_social_vulnerability");
     ("PRED0_PE",
      "rate_of_individuals_with_zero_components_of_social_vulnerability");
     ("PRED12_E",
      "estimated_number_of_individuals_with_one_two_components_of_social_vulnerability");
     ("PRED12_PE",
      "rate_of_individuals_with_one_two_components_of_social_vulnerability");
     ("PRED3_E",
      "estimated_number_of_individuals_with_three_or_more_components_of_social_vulnerability");
     ("PRED3_PE",
      "rate_of_individuals_with_three_or_more_components_of_social_vulnerability")].

(** [dictionary.get(old_name, old_name)] *)
Definition dict_get (dictionary : gmap string string) (old_name : string)
  : string :=
  default old_name (dictionary !! old_name).

(** The body shared by the three [clean_*] functions, from the renaming
    loop to the reordering; [dataframes] is the dictionary the API
    function returned, in insertion order. *)
Definition clean_frames (dictionary : gmap string string)
    (dataframes : list (string * DataFrame)) : result DataFrame :=
  let renamed :=
    (fun '(state, dataframe) => (state, rename (dict_get dictionary) dataframe))
      <$> dataframes in
  compiled ← concat (snd <$> renamed);
  compiled ← add_geo_id compiled "state" "county" "tract";
  compiled ← preprocess_name_column compiled;
  let remaining_columns :=
    filter (fun col => col ∉ DESIRED_COLUMNS) (columns compiled) in
  let new_order := DESIRED_COLUMNS ++ remaining_columns in
  select new_order compiled.

(** *** The two column steps read record by record

    [geo_record] and [name_record] say what [add_geo_id] and
    [preprocess_name_column] do to one record; [CensusFacts] proves that
    the functions above compute exactly these. *)
Definition geo_record (state_column county_column tract_column : string)
    (r : gmap string cell) : gmap string cell :=
  let r1 := <[state_column := Str (py_str (field state_column r))]> r in
  let r2 := <[county_column := Str (py_str (field county_column r1))]> r1 in
  let r3 := <[tract_column := Str (py_str (field tract_column r2))]> r2 in
  <["geo_id" := Str ((py_str (field state_column r3)
                      +:+ py_str (field county_column r3))
                     +:+ py_str (field tract_column r3))]> r3.

Definition name_part (j : nat) (r : gmap string cell) : cell :=
  default PyNone (expand_row 3 (field "NAME" r) !! j).

Definition name_record (r : gmap string cell) : gmap string cell :=
  let r1 := <["State_Name" := name_part 2 r]>
              (<["County_Name" := name_part 1 r]>
                 (<["Census_Tract" := name_part 0 r]> r)) in
  let r2 := delete "Census_Tract" (delete "NAME" r1) in
  let r3 := <["State_Name" := strip_cell (field "State_Name" r2)]> r2 in
  <["County_Name" := strip_cell (field "County_Name" r3)]> r3.

Definition name_columns (cols : list string) : list string :=
  filter (fun c => c ∉ ["Census_Tract"; "NAME"])
    (set_label "State_Name" (set_label "County_Name"
       (set_label "Census_Tract" cols))).

(** The three conversions to text of [add_geo_id], whatever labels
    coincide: in [r'] a label converted so far holds the text of its
    value in [r], any other label is untouched. *)
Definition converted (S : list string) (r r' : gmap string cell) : Prop :=
  forall k, (k ∈ S -> r' !! k = Some (Str (py_str (field k r)))) /\
            (k ∉ S -> r' !! k = r !! k).

(** The number of parts the combined name of a record splits into. *)
Definition name_parts (r : gmap string cell) : nat :=
  length (split_parts (field "NAME" r)).

(** A combined name of the form [tract; county; state]. *)
Definition combined_name (tract county state : string) : string :=
  tract +:+ PyStr.name_sep +:+ county +:+ PyStr.name_sep +:+ state.

Definition sep_free (s : string) : Prop :=
  PyStr.contains PyStr.name_sep s = false.

(** *** Readings of the name-split statements, and the frames they are
    tried on *)

(** "The split yields the three name fields, present in the normalized
    record": some field of the record holds the tract name, and the
    county and state names are under their labels. *)
Definition keeps_three_names (df : DataFrame) (tract county state : string)
  : Prop :=
  exists out r,
    preprocess_name_column df = Ok out /\ records out = [r] /\
    (exists k, r !! k = Some (Str tract)) /\
    r !! "County_Name" = Some (Str county) /\
    r !! "State_Name" = Some (Str state) /\
    r !! "NAME" = None.



Definition abc_frame : DataFrame :=
  mkFrame ["NAME"] [ {[ "NAME" := Str "A; B; C" ]} ].


Section api.
(** [requests.get(url, params=params)] followed by [.json()]. *)
Variable requests_get : string -> list (string * string) -> Response.

Definition fetch_states (url get : string)
  : result (list (string * DataFrame)) :=
  mapM (fun '(state, state_code) =>
          let params :=
            [("get", get); ("for", "TRACT:*"); ("in", "state:" +:+ state_code)] in
          dataframe ← load_dataframe (requests_get url params);
          mret (state, dataframe))
    STATE_CODE_DICTIONARY.

Definition population_distribution_api : result (list (string * DataFrame)) :=
  fetch_states "https://api.census.gov/data/2020/dec/dp?"
    "NAME,DP1_0078C,DP1_0079C,DP1_0080C,DP1_0081C,DP1_0082C,DP1_0083C".

Definition housing_characteristics_api : result (list (string * DataFrame)) :=
  fetch_states "https://api.census.gov/data/2020/dec/dhc?"
    "NAME,H12A_002N,H12A_010N,H12B_002N,H12B_010N,H12C_002N,H12C_010N,H12D_002N,H12D_010N,H12E_002N,H12E_010N,H12F_002N,H12F_010N".

Definition community_resilience_api : result (list (string * DataFrame)) :=
  fetch_states "https://api.census.gov/data/2022/cre?"
    "NAME,PRED0_E,PRED0_PE,PRED12_E,PRED12_PE,PRED3_E,PRED3_PE".

Definition clean_population_distribution_data : result DataFrame :=
  dp_dataframes ← population_distribution_api;
  clean_frames dp_dictionary dp_dataframes.

Definition clean_housing_characteristics_data : result DataFrame :=
  ddhc_dataframes ← housing_characteristics_api;
  clean_frames dhc_variable_dictionary ddhc_dataframes.

Definition clean_community_resilience_data : result DataFrame :=
  cre_dataframes ← community_resilience_api;
  clean_frames cre_dictionary cre_dataframes.

(** The join of [process_census_data_to_csv]; the frame returned is the
    one written to [census_data.csv]. *)
Definition merge_keys : list string :=
  ["geo_id"; "state"; "State_Name"; "county"; "County_Name"; "tract"].

Definition merge_census (dp_dataframe dhc_dataframe cre_dataframe : DataFrame)
  : result DataFrame :=
  merge_dp_and_dhc ← merge_outer merge_keys dp_dataframe dhc_dataframe;
  merge_outer merge_keys merge_dp_and_dhc cre_dataframe.

Definition process_census_data_to_csv : result DataFrame :=
  dp_dataframe ← clean_population_distribution_data;
  dhc_dataframe ← clean_housing_characteristics_data;
  cre_dataframe ← clean_community_resilience_data;
  merge_census dp_dataframe dhc_dataframe cre_dataframe.
End api.

(** *** The end-to-end scenario: one tract of California *)
Definition scenario_response : Response :=
  mkResponse ["NAME"; "state"; "county"; "tract"; "DP1_0078C"]
    [[Str "Tract 1; County X; State Y"; Str "06"; Str "001"; Str "000100";
      Str "523"]].

(** An API that answers with the scenario's row for California
    ([in=state:06]) and with the header alone for the other states. *)
Definition scenario_api (url : string) (params : list (string * string))
  : Response :=
  if decide (params !! 2 = Some ("in", "state:06"))
  then scenario_response
  else mkResponse (header scenario_response) [].

Definition scenario_columns : list string :=
  ["geo_id"; "state"; "State_Name"; "county"; "County_Name"; "tract";
   "white_population"].

Definition scenario_row : list cell :=
  [Str "06001000100"; Str "06"; Str "State Y"; Str "001"; Str "County X";
   Str "000100"; Str "523"].

(** No record of [df] has the identifier columns of [r]. *)
Definition no_match (r : gmap string cell) (df : DataFrame) : Prop :=
  Forall (fun r' => same_key merge_keys r r' = false) (records df).

(** Three cleaned tables with one tract each: a tract of California
    that only the population table has, one of Illinois that only the
    housing table has, and one of Florida that only the resilience
    table has. *)
Definition dp_only : DataFrame :=
  mkFrame (DESIRED_COLUMNS ++ ["white_population"])
    [list_to_map
       (zip (DESIRED_COLUMNS ++ ["white_population"])
          [Str "06001000100"; Str "06"; Str "State Y"; Str "001";
           Str "County X"; Str "000100"; Str "523"])].

Definition dhc_only : DataFrame :=
  mkFrame (DESIRED_COLUMNS ++ ["owner_occupied_asian"])
    [list_to_map
       (zip (DESIRED_COLUMNS ++ ["owner_occupied_asian"])
          [Str "17031000200"; Str "17"; Str "Illinois"; Str "031";
           Str "Cook County"; Str "000200"; Str "12"])].

Definition cre_only : DataFrame :=
  mkFrame (DESIRED_COLUMNS ++ ["PRED0_E"])
    [list_to_map
       (zip (DESIRED_COLUMNS ++ ["PRED0_E"])
          [Str "12086000300"; Str "12"; Str "Florida"; Str "086";
           Str "Miami-Dade County"; Str "000300"; Str "7"])].

(** A housing table with the tract of [dp_only]. *)
Definition dhc_same : DataFrame :=
  mkFrame (DESIRED_COLUMNS ++ ["owner_occupied_asian"])
    [list_to_map
       (zip (DESIRED_COLUMNS ++ ["owner_occupied_asian"])
          [Str "06001000100"; Str "06"; Str "State Y"; Str "001";
           Str "County X"; Str "000100"; Str "12"])].

(** A second population response, with the columns in another order. *)
Definition shuffled_response : Response :=
  mkResponse ["DP1_0078C"; "tract"; "NAME"; "county"; "state"]
    [[Str "523"; Str "000100"; Str "Tract 1; County X; State Y"; Str "001";
      Str "06"]].

End Census.

(** ** The database connection *)

Module Sqlite.

(** A table created by the loader: its first column is the
    [INTEGER PRIMARY KEY], the others have no declared type.  A stored
    row is kept under its integer key, with the text values of the other
    columns in order. *)
Record table : Type := mkTable {
  tbl_columns : list string;
  tbl_rows : gmap Z (list string)
}.

(** Table names are compared without regard to the case of A..Z. *)
Definition fold_char (c : ascii) : ascii :=
  let n := N_of_ascii c in
  if ((65 <=? n) && (n <=? 90))%N then ascii_of_N (n + 32) else c.

Fixpoint fold_name (s : string) : string :=
  match s with
  | EmptyString => EmptyString
  | String c s' => String (fold_char c) (fold_name s')
  end.

Section engine.
(** Two behaviours of the engine are left open: which statement texts
    it accepts, and which text values an [INTEGER PRIMARY KEY] column
    takes as an integer ([None]: the value is refused with "datatype
    mismatch"). *)
Variable accepts : string -> bool.
Variable rowid_of_text : string -> option Z.

(** [cursor.execute(sql)] for [CREATE TABLE IF NOT EXISTS name (...)]
    declaring the columns [cols]. *)
Definition execute_create (sql name : string) (cols : list string)
    (db : gmap string table) : result (gmap string table) :=
  if accepts sql then
    match db !! fold_name name with
    | Some _ => Ok db
    | None => Ok (<[fold_name name := mkTable cols ∅]> db)
    end
  else Raise OperationalError.

(** [cursor.execute("INSERT INTO name VALUES (?,...,?)", row)].  The
    connection raises [sqlite3.OperationalError] when the table is
    missing or the number of values is not the number of columns, and
    [sqlite3.IntegrityError] when the key is refused (datatype
    mismatch) or already present (uniqueness). *)
Definition execute_insert (name : string) (row : list string)
    (db : gmap string table) : result (gmap string table) :=
  match db !! fold_name name with
  | None => Raise OperationalError
  | Some t =>
      if decide (length row = length (tbl_columns t)) then
        match row with
        | [] => Raise OperationalError
        | v :: rest =>
            match rowid_of_text v with
            | None => Raise IntegrityError
            | Some k =>
                match tbl_rows t !! k with
                | Some _ => Raise IntegrityError
                | None =>
                    Ok (<[fold_name name :=
                            mkTable (tbl_columns t) (<[k := rest]> (tbl_rows t))]> db)
                end
            end
        end
      else Raise OperationalError
  end.

(** The three ways an insert fails. *)
Definition pk_conflict (name : string) (row : list string)
    (db : gmap string table) : Prop :=
  exists t v rest k old,
    db !! fold_name name = Some t /\ row = v :: rest /\
    length row = length (tbl_columns t) /\
    rowid_of_text v = Some k /\ tbl_rows t !! k = Some old.

Definition datatype_mismatch (name : string) (row : list string)
    (db : gmap string table) : Prop :=
  exists t v rest,
    db !! fold_name name = Some t /\ row = v :: rest /\
    length row = length (tbl_columns t) /\ rowid_of_text v = None.

Definition count_mismatch (name : string) (row : list string)
    (db : gmap string table) : Prop :=
  exists t, db !! fold_name name = Some t /\
            length row <> length (tbl_columns t).
End engine.

End Sqlite.

(** ** [sql_database.py] *)

Module Loader.
Import Sqlite.

(** The double quote character. *)
Definition dquote : string := String "034"%char EmptyString.

(** A file found by [os.walk]: its name and the rows [csv.reader] yields
    from it. *)
Definition csv_file : Type := (string * list (list string))%type.

(** What the run has done so far: the tables as the connection sees
    them, and the lines printed. *)
Record state : Type := mkState {
  conn : gmap string table;
  stdout : list string
}.

Definition matches_geo_id (header : string) : bool :=
  PyStr.contains "geo_id" (PyStr.lower header).

(** The search loop for the primary key. *)
Fixpoint find_primary_key (headers : list string) : option string :=
  match headers with
  | [] => None
  | header :: headers' =>
      if matches_geo_id header then Some header else find_primary_key headers'
  end.

Definition quote_chars : list string :=
  [" "; ","; "&"; "."; EmptyString; ","].

Definition needs_quote (column : string) : bool :=
  existsb (fun c => PyStr.contains c column) quote_chars.

Definition quoted (column : string) : string :=
  if needs_quote column then dquote +:+ column +:+ dquote else column.

Definition remaining_columns (headers : list string)
    (primary_key_column : string) : list string :=
  quoted <$> filter (fun column => column <> primary_key_column) headers.

Definition table_creation_sql (table_name : string) (headers : list string)
    (primary_key_column : string) : string :=
  "CREATE TABLE IF NOT EXISTS " +:+ table_name +:+ " (" +:+ primary_key_column
  +:+ " INTEGER PRIMARY KEY, "
  +:+ PyStr.join " ," (remaining_columns headers primary_key_column) +:+ ")".

(** The columns the statement declares, in order. *)
Definition table_columns (headers : list string)
    (primary_key_column : string) : list string :=
  primary_key_column
    :: filter (fun column => column <> primary_key_column) headers.

Definition skip_message (file : string) : string :=
  "Skipping file " +:+ file +:+ " as 'geo_id' column not found".

Definition done_message : string :=
  "Database created successfully and Tables added".

Section loader.
Variable accepts : string -> bool.
Variable rowid_of_text : string -> option Z.

(** The loop over the data rows, with its [try]/[except]. *)
Fixpoint insert_rows (table_name : string) (rows : list (list string))
    (db : gmap string table) : result (gmap string table) :=
  match rows with
  | [] => Ok db
  | row :: rows' =>
      match execute_insert rowid_of_text table_name row db with
      | Ok db' => insert_rows table_name rows' db'
      | Raise IntegrityError => insert_rows table_name rows' db
      | Raise e => Raise e
      end
  end.

(** The body of the loop over the files, for one file. *)
Definition load_file (f : csv_file) (st : state) : result state :=
  let '(file, contents) := f in
  if PyStr.endswith ".csv" file then
    let table_name := PyStr.splitext_root file in
    match contents with
    | [] => Raise StopIteration
    | headers :: rows =>
        match find_primary_key headers with
        | None => Ok (mkState (conn st) (stdout st ++ [skip_message file]))
        | Some primary_key_column =>
            db ← execute_create accepts
                   (table_creation_sql table_name headers primary_key_column)
                   table_name (table_columns headers primary_key_column)
                   (conn st);
            db ← insert_rows table_name rows db;
            mret (mkState db (stdout st))
        end
    end
  else Ok st.

Fixpoint load_files (files : list csv_file) (st : state) : result state :=
  match files with
  | [] => Ok st
  | f :: files' => st' ← load_file f st; load_files files' st'
  end.

(** [walk] lists, directory by directory, the files [os.walk] yields;
    the state returned is the one committed. *)
Definition insert_tables_to_database (walk : list (string * list csv_file))
    (db : gmap string table) : result state :=
  st ← load_files (walk ≫= snd) (mkState db []);
  mret (mkState (conn st) (stdout st ++ [done_message])).
End loader.

(** An engine for the examples: it accepts every statement, and takes a
    text as a key when it is a plain decimal numeral. *)
Definition accept_all (sql : string) : bool := true.

Definition digit_of (c : ascii) : option Z :=
  let n := N_of_ascii c in
  if ((48 <=? n) && (n <=? 57))%N then Some (Z.of_N (n - 48)) else None.

Fixpoint decimal_from (acc : Z) (s : string) : option Z :=
  match s with
  | EmptyString => Some acc
  | String c s' =>
      match digit_of c with
      | Some d => decimal_from (10 * acc + d) s'
      | None => None
      end
  end.

Definition decimal_rowid (s : string) : option Z :=
  match s with
  | EmptyString => None
  | _ => decimal_from 0 s
  end.

(** *** Readings of the loader statements, and the inputs they are tried
    on *)

(** The characters the specification names for quoting. *)
Definition special_chars : list string := [" "; ","; "&"; "."].

Definition has_special_char (column : string) : bool :=
  existsb (fun c => PyStr.contains c column) special_chars.


(** "The key conflict is the only insert error that is caught": any
    failing insert that is not a key conflict aborts the loop. *)
Definition only_pk_conflict_is_caught (rowid_of_text : string -> option Z)
    (table_name : string) (row : list string) (rows : list (list string))
    (db : gmap string table) : Prop :=
  forall e,
    execute_insert rowid_of_text table_name row db = Raise e ->
    ~ pk_conflict rowid_of_text table_name row db ->
    insert_rows rowid_of_text table_name (row :: rows) db = Raise e.

(** A connection holding one empty table [t (geo_id, x)], and one that
    already holds the key [1]. *)
Definition empty_t : gmap string table :=
  {[ "t" := mkTable ["geo_id"; "x"] ∅ ]}.

Definition one_row_t : gmap string table :=
  {[ "t" := mkTable ["geo_id"; "x"] {[ 1%Z := ["u"] ]} ]}.

(** *** The tables before and after

    [grows db db']: every table of [db] is in [db'] with the same columns
    and with every row it had, unchanged. *)
Definition grows (db db' : gmap string table) : Prop :=
  forall name t,
    db !! name = Some t ->
    exists t', db' !! name = Some t' /\
      tbl_columns t' = tbl_columns t /\
      forall k v, tbl_rows t !! k = Some v -> tbl_rows t' !! k = Some v.

(** The files the loop reads, and those it skips with a message. *)
Definition is_csv (f : csv_file) : bool := PyStr.endswith ".csv" f.1.

Definition is_skipped (f : csv_file) : bool :=
  is_csv f &&
  match f.2 with
  | headers :: _ =>
      match find_primary_key headers with
      | None => true
      | Some _ => false
      end
  | [] => false
  end.

End Loader.

(** * Properties *)

(** ** Results *)

Lemma raises_not_returns {A : Type} (m : result A) :
  raises m <-> ~ returns m.
Proof.
  unfold raises, returns. destruct m as [a|e]; split.
  - intros [e He]. discriminate.
  - intros H. exfalso. apply H. eauto.
  - intros _ [a Ha]. discriminate.
  - eauto.
Qed.

(** ** Strings *)

Module PyStrFacts.
Import PyStr.

Lemma startswith_empty (s : string) : startswith EmptyString s = true.
Proof. by destruct s. Qed.

Lemma contains_empty (s : string) : contains EmptyString s = true.
Proof. by destruct s. Qed.

Lemma app_cons (a : ascii) (s t : string) :
  String a s +:+ t = String a (s +:+ t).
Proof. reflexivity. Qed.

Lemma app_empty (s : string) : EmptyString +:+ s = s.
Proof. reflexivity. Qed.

Lemma app_assoc (s1 s2 s3 : string) :
  (s1 +:+ s2) +:+ s3 = s1 +:+ s2 +:+ s3.
Proof.
  induction s1 as [|a s1 IH]; [done|]. rewrite !app_cons. by rewrite IH.
Qed.

Lemma length_app (s1 s2 : string) :
  String.length (s1 +:+ s2) = String.length s1 + String.length s2.
Proof.
  induction s1 as [|a s1 IH]; [done|]. rewrite app_cons. simpl. by rewrite IH.
Qed.

Lemma startswith_spec (p s : string) :
  startswith p s = true <-> exists post, s = p +:+ post.
Proof.
  revert s. induction p as [|a p IH]; intros s; simpl.
  - split; [eauto | by destruct s].
  - destruct s as [|b s].
    + split; [done | intros [post H]; discriminate].
    + setoid_rewrite app_cons.
      destruct (Ascii.eqb_spec a b) as [->|Hne].
      * rewrite IH. split; intros [post H]; exists post; congruence.
      * split; [done | intros [post H]; congruence].
Qed.

Lemma contains_spec (sub s : string) :
  contains sub s = true <-> exists pre post, s = pre +:+ sub +:+ post.
Proof.
  induction s as [|b s IH].
  - simpl. rewrite orb_false_r, startswith_spec. split.
    + intros [post H]. by exists EmptyString, post.
    + intros [[|a pre] [post H]]; [eauto | discriminate].
  - cbn [contains]. rewrite orb_true_iff, IH, startswith_spec. split.
    + intros [[post H] | (pre & post & H)].
      * by exists EmptyString, post.
      * exists (String b pre), post. rewrite app_cons. congruence.
    + intros ([|a pre] & post & H).
      * left. eauto.
      * right. exists pre, post. rewrite app_cons in H. congruence.
Qed.

Lemma lower_app (s t : string) : lower (s +:+ t) = lower s +:+ lower t.
Proof.
  induction s as [|a s IH]; [done|].
  rewrite app_cons. simpl. rewrite app_cons. congruence.
Qed.

Lemma split_name_cons (c : ascii) (rest : string) :
  split_name (String c rest) =
  match rest with
  | String d rest' =>
      if Ascii.eqb c ";" && Ascii.eqb d " "
      then EmptyString :: split_name rest'
      else cons_char c (split_name rest)
  | EmptyString => cons_char c (split_name rest)
  end.
Proof. by destruct rest. Qed.

Lemma cons_char_nonempty (c : ascii) (parts : list string) :
  cons_char c parts <> [].
Proof. by destruct parts. Qed.

Lemma split_name_nonempty (s : string) : split_name s <> [].
Proof.
  destruct s as [|c [|d s]]; [done | done |].
  rewrite split_name_cons.
  destruct (_ && _); [done | apply cons_char_nonempty].
Qed.

Lemma startswith_sep (a b : ascii) (t : string) :
  startswith name_sep (String a (String b t))
  = Ascii.eqb a ";" && Ascii.eqb b " ".
Proof.
  cbn [startswith name_sep].
  rewrite (Ascii.eqb_sym a), (Ascii.eqb_sym b).
  by destruct (Ascii.eqb ";" a), (Ascii.eqb " " b).
Qed.

(** A string without the separator is its own single part. *)
Lemma split_name_free (t : string) :
  contains name_sep t = false -> split_name t = [t].
Proof.
  induction t as [|a t IH]; [done|].
  cbn [contains]. intros [H1 H2]%orb_false_elim.
  specialize (IH H2). rewrite split_name_cons.
  destruct t as [|b t]; [done|].
  rewrite startswith_sep in H1. by rewrite H1, IH.
Qed.

(** The first part of [t; rest] is [t] when [t] has no separator. *)
Lemma split_name_app (t rest : string) :
  contains name_sep t = false ->
  split_name (t +:+ name_sep +:+ rest) = t :: split_name rest.
Proof.
  induction t as [|a t IH]; [done|].
  cbn [contains]. intros [H1 H2]%orb_false_elim.
  specialize (IH H2). rewrite app_cons, split_name_cons.
  destruct t as [|b t].
  - rewrite app_empty in *. unfold name_sep at 1. rewrite !app_cons.
    rewrite andb_false_r. by rewrite IH.
  - rewrite app_cons. rewrite startswith_sep in H1. rewrite H1.
    rewrite <- app_cons. by rewrite IH.
Qed.

(** A name of the form [tract; county; state] has exactly these three
    parts. *)
Lemma split_name_three (t c s : string) :
  contains name_sep t = false -> contains name_sep c = false ->
  contains name_sep s = false ->
  split_name (t +:+ name_sep +:+ c +:+ name_sep +:+ s) = [t; c; s].
Proof.
  intros Ht Hc Hs.
  by rewrite (split_name_app t), (split_name_app c), (split_name_free s).
Qed.

End PyStrFacts.

(** ** Frames *)

Module PandasFacts.
Import Pandas.

Lemma data_bind_Ok {A B : Type} (a : A) (k : A -> result B) :
  (Ok a ≫= k) = k a.
Proof. reflexivity. Qed.

Lemma data_bind_Raise {A B : Type} (e : exn) (k : A -> result B) :
  (Raise e ≫= k) = Raise e.
Proof. reflexivity. Qed.

Lemma elem_of_set_label (x c : string) (cols : list string) :
  x ∈ set_label c cols <-> x = c \/ x ∈ cols.
Proof.
  unfold set_label. case_decide.
  - split; [by right | by intros [->|?]].
  - rewrite elem_of_app, list_elem_of_singleton. tauto.
Qed.

Lemma set_label_in (c : string) (cols : list string) :
  c ∈ cols -> set_label c cols = cols.
Proof. intros H. unfold set_label. by rewrite decide_True. Qed.

Lemma filter_set_label (P : string -> Prop) `{!forall x, Decision (P x)}
    (c : string) (cols : list string) :
  ~ P c -> filter P (set_label c cols) = filter P cols.
Proof.
  intros Hc. unfold set_label. case_decide; [done|].
  rewrite filter_app, filter_cons_False, filter_nil by done.
  apply app_nil_r.
Qed.

Lemma field_lookup (c : string) (r : gmap string cell) (v : cell) :
  r !! c = Some v -> field c r = v.
Proof. unfold field. by intros ->. Qed.

Lemma field_insert (c : string) (v : cell) (r : gmap string cell) :
  field c (<[c := v]> r) = v.
Proof. unfold field. by rewrite lookup_insert_eq. Qed.

Lemma field_insert_ne (c k : string) (v : cell) (r : gmap string cell) :
  c <> k -> field k (<[c := v]> r) = field k r.
Proof. intros H. unfold field. by rewrite lookup_insert_ne. Qed.

Lemma getitem_Ok (c : string) (df : DataFrame) :
  c ∈ columns df -> getitem c df = Ok (field c <$> records df).
Proof. intros H. unfold getitem. by rewrite decide_True. Qed.

Lemma getitem_Raise (c : string) (df : DataFrame) :
  c ∉ columns df -> getitem c df = Raise (KeyError c).
Proof. intros H. unfold getitem. by rewrite decide_False. Qed.

(** Assigning a column computed from the frame's own records. *)
Lemma setitem_fmap (c : string) (h : gmap string cell -> cell)
    (df : DataFrame) :
  setitem c (h <$> records df) df
  = Ok (mkFrame (set_label c (columns df))
          ((fun r => <[c := h r]> r) <$> records df)).
Proof.
  unfold setitem. rewrite decide_True by apply length_fmap.
  do 2 f_equal. rewrite zip_with_fmap_r. apply zip_with_diag.
Qed.

Lemma series_add_fmap {A : Type} (h1 h2 h3 : A -> cell) (l : list A) :
  Forall (fun r => add_cell (h1 r) (h2 r) = Ok (h3 r)) l ->
  series_add (h1 <$> l) (h2 <$> l) = Ok (h3 <$> l).
Proof.
  induction 1 as [|r l Hr Hl IH]; [done|].
  cbn [fmap list_fmap series_add] in *. by rewrite Hr, IH.
Qed.

(** The record built from a list of labels. *)
Lemma lookup_labelled {A : Type} (f : string -> A) (cols : list string)
    (c : string) :
  (list_to_map ((fun c => (c, f c)) <$> cols) : gmap string A) !! c
  = if decide (c ∈ cols) then Some (f c) else None.
Proof.
  induction cols as [|c0 cols IH]; [done|].
  cbn [fmap list_fmap list_to_map foldr].
  destruct (decide (c0 = c)) as [->|Hne].
  - rewrite lookup_insert_eq, decide_True; [done | left].
  - rewrite lookup_insert_ne, IH by done.
    destruct (decide (c ∈ cols)).
    + rewrite decide_True; [done | by right].
    + rewrite decide_False; [done|]. rewrite elem_of_cons. by intros [?|?].
Qed.

Lemma lookup_reindex (cols : list string) (r : gmap string cell) (c : string) :
  reindex cols r !! c = if decide (c ∈ cols) then Some (field c r) else None.
Proof. apply (lookup_labelled (fun c => field c r)). Qed.

Lemma select_Ok (labels : list string) (df out : DataFrame) :
  select labels df = Ok out -> columns out = labels.
Proof.
  unfold select. destruct (list_find _ _) as [[? ?]|]; [done|].
  by intros [= <-].
Qed.

Lemma concat_Ok (frames : list DataFrame) (out : DataFrame) :
  concat frames = Ok out -> columns out = union_labels frames.
Proof. destruct frames; [done|]. by intros [= <-]. Qed.

Lemma max_list_cons (k : nat) (l : list nat) :
  max_list (k :: l) = k `max` max_list l.
Proof. reflexivity. Qed.

Lemma max_list_le (n : nat) (l : list nat) :
  max_list l <= n <-> Forall (fun k => k <= n) l.
Proof.
  induction l as [|k l IH].
  - split; [constructor | simpl; lia].
  - rewrite max_list_cons, Forall_cons, <- IH. lia.
Qed.

Lemma max_list_eq (n : nat) (l : list nat) :
  0 < n ->
  max_list l = n <-> Exists (fun k => k = n) l /\ Forall (fun k => k <= n) l.
Proof.
  intros Hn. rewrite <- max_list_le. induction l as [|k l IH].
  - rewrite Exists_nil. simpl. split; [lia | tauto].
  - rewrite Exists_cons, max_list_cons. split.
    + intros H. destruct (decide (k = n)) as [->|Hk].
      * split; [by left | lia].
      * assert (max_list l = n) as Hl by lia.
        apply IH in Hl as [? ?]. split; [by right | lia].
    + intros [[->|He] Hk]; [lia|].
      assert (max_list l = n) by (apply IH; split; [done | lia]). lia.
Qed.

End PandasFacts.

(** ** [census_data.py]: the column steps, record by record *)

Module CensusFacts.
Import Pandas Census PandasFacts PyStrFacts.

Lemma field_insert_str (k k' : string) (x : string) (r : gmap string cell) :
  field k' r = Str (py_str (field k' r)) \/ k = k' ->
  field k' (<[k := Str x]> r) = Str (py_str (field k' (<[k := Str x]> r))).
Proof.
  intros H. destruct (decide (k = k')) as [->|Hne].
  - by rewrite field_insert.
  - rewrite field_insert_ne by done. by destruct H.
Qed.

Lemma series_add_str {A : Type} (h1 h2 : A -> cell) (l : list A) :
  Forall (fun r => h1 r = Str (py_str (h1 r)) /\ h2 r = Str (py_str (h2 r))) l ->
  series_add (h1 <$> l) (h2 <$> l)
  = Ok ((fun r => Str (py_str (h1 r) +:+ py_str (h2 r))) <$> l).
Proof.
  intros H. apply series_add_fmap. eapply Forall_impl; [exact H|].
  intros r [-> ->]. reflexivity.
Qed.

(** [add_geo_id] returns whenever the three code columns exist, and then
    rewrites every record with [geo_record]. *)
Lemma add_geo_id_records (df : DataFrame) (s c t : string) :
  s ∈ columns df -> c ∈ columns df -> t ∈ columns df ->
  add_geo_id df s c t
  = Ok (mkFrame (set_label "geo_id" (columns df))
          (geo_record s c t <$> records df)).
Proof.
  intros Hs Hc Ht. unfold add_geo_id.
  rewrite (getitem_Ok s) by done. rewrite data_bind_Ok.
  unfold astype_str. rewrite <- list_fmap_compose, setitem_fmap, data_bind_Ok.
  rewrite (set_label_in s) by done.
  rewrite (getitem_Ok c) by done. rewrite data_bind_Ok.
  rewrite <- list_fmap_compose, setitem_fmap, data_bind_Ok.
  cbn [columns]. rewrite (set_label_in c) by done.
  rewrite (getitem_Ok t) by done. rewrite data_bind_Ok.
  rewrite <- list_fmap_compose, setitem_fmap, data_bind_Ok.
  cbn [columns]. rewrite (set_label_in t) by done.
  rewrite (getitem_Ok s), (getitem_Ok c), (getitem_Ok t) by done.
  rewrite !data_bind_Ok.
  rewrite series_add_str, data_bind_Ok.
  2:{ cbn [records]. do 3 apply Forall_fmap. apply Forall_true. intros r.
      unfold compose.
      split; repeat (apply field_insert_str; first [ by right | left ]). }
  rewrite series_add_str, data_bind_Ok.
  2:{ cbn [records]. do 3 apply Forall_fmap. apply Forall_true. intros r.
      unfold compose. split; [done|].
      repeat (apply field_insert_str; first [ by right | left ]). }
  rewrite setitem_fmap. cbn [columns records]. f_equal. f_equal.
  rewrite <- !list_fmap_compose. apply list_fmap_ext. intros i r Hr.
  reflexivity.
Qed.


Lemma converted_insert (S : list string) (r r' : gmap string cell)
    (k0 : string) :
  converted S r r' ->
  converted (k0 :: S) r (<[k0 := Str (py_str (field k0 r'))]> r').
Proof.
  intros H k. destruct (decide (k = k0)) as [->|Hne].
  - rewrite lookup_insert_eq. split; [intros _ | intros []; left].
    do 2 f_equal. destruct (decide (k0 ∈ S)) as [Hin|Hout].
    + rewrite (field_lookup _ _ _ (proj1 (H k0) Hin)). reflexivity.
    + unfold field. by rewrite (proj2 (H k0) Hout).
  - rewrite lookup_insert_ne by done. rewrite elem_of_cons.
    destruct (H k) as [H1 H2]. split; [intros [?|?]; [done | auto] | auto].
Qed.

Lemma converted_field (S : list string) (r r' : gmap string cell) (k : string) :
  converted S r r' -> k ∈ S -> field k r' = Str (py_str (field k r)).
Proof. intros H Hk. apply field_lookup. by apply H. Qed.

Lemma geo_record_spec (s c t : string) (r : gmap string cell) :
  s <> "geo_id" -> c <> "geo_id" -> t <> "geo_id" ->
  let a := py_str (field s r) in
  let b := py_str (field c r) in
  let d := py_str (field t r) in
  geo_record s c t r !! s = Some (Str a) /\
  geo_record s c t r !! c = Some (Str b) /\
  geo_record s c t r !! t = Some (Str d) /\
  geo_record s c t r !! "geo_id" = Some (Str (a +:+ b +:+ d)) /\
  forall k, k ∉ [s; c; t; "geo_id"] -> geo_record s c t r !! k = r !! k.
Proof.
  intros Hs Hc Ht a b d. unfold geo_record.
  assert (converted [] r r) as H0 by (intros k; split; [by intros ?%elem_of_nil | done]).
  apply (converted_insert _ _ _ s) in H0.
  apply (converted_insert _ _ _ c) in H0.
  apply (converted_insert _ _ _ t) in H0.
  set (r3 := <[t := _]> _) in *.
  rewrite !lookup_insert_ne by done. rewrite lookup_insert_eq.
  rewrite !(converted_field _ _ _ _ H0) by (rewrite !elem_of_cons; tauto).
  cbn [py_str].
  rewrite app_assoc.
  repeat split; try (apply H0; rewrite !elem_of_cons; tauto).
  intros k Hk. rewrite !elem_of_cons, elem_of_nil in Hk.
  rewrite lookup_insert_ne by (intros <-; tauto).
  apply H0. rewrite !elem_of_cons, elem_of_nil. tauto.
Qed.

(** C6. In every record that [add_geo_id] produces, [geo_id] is the
    state code followed by the county code followed by the tract code
    of that record, each taken as text, with nothing in between; its
    length is the sum of the three lengths. *)
Theorem C6_geo_id_is_concatenation (df : DataFrame) (s c t : string) :
  s ∈ columns df -> c ∈ columns df -> t ∈ columns df ->
  s <> "geo_id" -> c <> "geo_id" -> t <> "geo_id" ->
  exists out,
    add_geo_id df s c t = Ok out /\
    Forall2 (fun r r' =>
               exists state_code county_code tract_code,
                 state_code = py_str (field s r) /\
                 county_code = py_str (field c r) /\
                 tract_code = py_str (field t r) /\
                 r' !! s = Some (Str state_code) /\
                 r' !! c = Some (Str county_code) /\
                 r' !! t = Some (Str tract_code) /\
                 r' !! "geo_id"
                 = Some (Str (state_code +:+ county_code +:+ tract_code)) /\
                 String.length (state_code +:+ county_code +:+ tract_code)
                 = String.length state_code + String.length county_code
                   + String.length tract_code)
      (records df) (records out).
Proof.
  intros Hs Hc Ht Hs' Hc' Ht'. eexists. split.
  { by apply add_geo_id_records. }
  cbn [records]. apply Forall2_fmap_r, Forall_Forall2_diag, Forall_true.
  intros r. destruct (geo_record_spec s c t r Hs' Hc' Ht') as (?&?&?&?&_).
  eexists _, _, _. repeat split; try done.
  rewrite !length_app. lia.
Qed.

Lemma C6_geo_id_is_concatenation_witness :
  exists out,
    add_geo_id
      (mkFrame ["state"; "county"; "tract"]
         [ {[ "state" := Str "06"; "county" := Str "001";
              "tract" := Str "000100" ]} ])
      "state" "county" "tract" = Ok out /\
    length (records out) = 1.
Proof.
  destruct (C6_geo_id_is_concatenation
              (mkFrame ["state"; "county"; "tract"]
                 [ {[ "state" := Str "06"; "county" := Str "001";
                      "tract" := Str "000100" ]} ])
              "state" "county" "tract") as (out & Hout & Hrec);
    [cbn [columns]; rewrite !elem_of_cons; tauto ..| done | done | done |].
  exists out. split; [exact Hout|].
  apply Forall2_length in Hrec. by rewrite <- Hrec.
Defined.

Lemma setitem_over (c : string) {A : Type} (h : A -> cell)
    (g : A -> gmap string cell) (cols : list string) (l : list A) :
  setitem c (h <$> l) (mkFrame cols (g <$> l))
  = Ok (mkFrame (set_label c cols) ((fun r => <[c := h r]> (g r)) <$> l)).
Proof.
  unfold setitem. cbn [records columns].
  rewrite decide_True by (by rewrite !length_fmap).
  do 2 f_equal. rewrite zip_with_fmap_l, zip_with_fmap_r. apply zip_with_diag.
Qed.

Lemma drop_Ok (labels : list string) (df : DataFrame) :
  Forall (fun c => c ∈ columns df) labels ->
  drop labels df
  = Ok (mkFrame (filter (fun c => c ∉ labels) (columns df))
          ((fun r => foldr delete r labels) <$> records df)).
Proof.
  intros H. unfold drop.
  assert (list_find (fun c => c ∉ columns df) labels = None) as ->; [|done].
  apply list_find_None. eapply Forall_impl; [exact H|]. intros c Hc Hn. done.
Qed.

Lemma length_str_split_expand (series : list cell) :
  length (str_split_expand series) = split_width series.
Proof. unfold str_split_expand. by rewrite length_fmap, length_seq. Qed.

(** [preprocess_name_column] on a frame with a [NAME] column: it returns
    exactly when the widest split has three parts, and then rewrites
    every record with [name_record]. *)
Lemma preprocess_records (df : DataFrame) :
  "NAME" ∈ columns df ->
  split_width (field "NAME" <$> records df) = 3 ->
  preprocess_name_column df
  = Ok (mkFrame (name_columns (columns df)) (name_record <$> records df)).
Proof.
  intros Hname Hw. unfold preprocess_name_column.
  rewrite getitem_Ok by done. rewrite data_bind_Ok.
  unfold setitem_list. rewrite length_str_split_expand, Hw.
  rewrite decide_True by done.
  unfold str_split_expand. rewrite Hw. cbn [seq fmap list_fmap].
  rewrite <- !list_fmap_compose. destruct df as [cols recs].
  cbn [columns records] in *. cbn [setitem_each].
  pose proof (setitem_fmap "Census_Tract" (name_part 0) (mkFrame cols recs)) as E.
  cbn [records columns] in E. unfold name_part in E at 1.
  change (fun r => default PyNone (expand_row 3 (field "NAME" r) !! 0))
    with ((fun v => default PyNone (expand_row 3 v !! 0)) ∘ field "NAME") in E.
  rewrite E, data_bind_Ok. clear E.
  rewrite setitem_over, data_bind_Ok, setitem_over, !data_bind_Ok.
  rewrite drop_Ok, data_bind_Ok.
  2:{ cbn [columns]. repeat constructor; rewrite !elem_of_set_label; auto. }
  cbn [columns records foldr].
  fold (name_columns cols).
  assert ("State_Name" ∈ name_columns cols /\ "County_Name" ∈ name_columns cols)
    as [Hsn Hcn].
  { unfold name_columns. rewrite !list_elem_of_filter, !elem_of_set_label.
    split; (split; [by rewrite !elem_of_cons, elem_of_nil; intros [?|[?|?]] | auto]). }
  rewrite getitem_Ok, data_bind_Ok by done.
  unfold str_strip. rewrite <- list_fmap_compose, setitem_fmap, data_bind_Ok.
  cbn [columns]. rewrite (set_label_in "State_Name") by done.
  rewrite getitem_Ok, data_bind_Ok by done.
  rewrite <- list_fmap_compose, setitem_fmap.
  cbn [columns records]. rewrite (set_label_in "County_Name") by done.
  rewrite data_bind_Ok. cbn [mret result_ret]. do 2 f_equal.
  rewrite <- !list_fmap_compose. apply list_fmap_ext. intros i r Hr.
  reflexivity.
Qed.

Lemma preprocess_raises (df : DataFrame) :
  "NAME" ∈ columns df ->
  split_width (field "NAME" <$> records df) <> 3 ->
  preprocess_name_column df = Raise ValueError.
Proof.
  intros Hname Hw. unfold preprocess_name_column.
  rewrite getitem_Ok by done. rewrite data_bind_Ok.
  unfold setitem_list. rewrite length_str_split_expand.
  by rewrite decide_False.
Qed.

Lemma split_width_parts (recs : list (gmap string cell)) :
  split_width (field "NAME" <$> recs) = max_list (name_parts <$> recs).
Proof. unfold split_width. by rewrite <- list_fmap_compose. Qed.

Lemma name_record_spec (r : gmap string cell) :
  name_record r !! "County_Name" = Some (strip_cell (name_part 1 r)) /\
  name_record r !! "State_Name" = Some (strip_cell (name_part 2 r)) /\
  name_record r !! "NAME" = None /\
  name_record r !! "Census_Tract" = None /\
  forall k, k ∉ ["NAME"; "Census_Tract"; "County_Name"; "State_Name"] ->
            name_record r !! k = r !! k.
Proof.
  unfold name_record, field. repeat split.
  - by rewrite lookup_insert_eq, lookup_insert_ne, !lookup_delete_ne,
      lookup_insert_ne, lookup_insert_eq.
  - by rewrite lookup_insert_ne, lookup_insert_eq, !lookup_delete_ne,
      lookup_insert_eq.
  - by rewrite !lookup_insert_ne, lookup_delete_ne, lookup_delete_eq.
  - by rewrite !lookup_insert_ne, lookup_delete_eq.
  - intros k Hk. rewrite !elem_of_cons, elem_of_nil in Hk.
    rewrite !lookup_insert_ne, !lookup_delete_ne, !lookup_insert_ne;
      first done; intros <-; tauto.
Qed.

Lemma name_part_combined (r : gmap string cell) (t c s : string) :
  r !! "NAME" = Some (Str (combined_name t c s)) ->
  sep_free t -> sep_free c -> sep_free s ->
  name_parts r = 3 /\ name_part 0 r = Str t /\
  name_part 1 r = Str c /\ name_part 2 r = Str s.
Proof.
  intros Hr Ht Hc Hs. unfold name_parts, name_part.
  rewrite (field_lookup _ _ _ Hr). unfold expand_row, split_parts, combined_name.
  by rewrite split_name_three.
Qed.

Lemma split_width_all_three (recs : list (gmap string cell)) :
  recs <> [] -> Forall (fun r => name_parts r = 3) recs ->
  split_width (field "NAME" <$> recs) = 3.
Proof.
  intros Hne Hall. rewrite split_width_parts. apply max_list_eq; [lia|].
  destruct Hall as [|r recs Hr Hall]; [done|]. split.
  - left. exact Hr.
  - rewrite Forall_fmap. constructor; [unfold compose; cbv beta; lia|].
    eapply Forall_impl; [exact Hall|].
    intros r' Hr'. unfold compose. cbv beta in *. lia.
Qed.

Lemma name_columns_elem (x : string) (cols : list string) :
  x ∈ name_columns cols <->
  (x <> "Census_Tract" /\ x <> "NAME") /\
  (x = "State_Name" \/ x = "County_Name" \/ x = "Census_Tract" \/ x ∈ cols).
Proof.
  unfold name_columns.
  rewrite list_elem_of_filter, !elem_of_set_label, !elem_of_cons, elem_of_nil.
  tauto.
Qed.

(** C2 (amended). On a table with at least one row in which every
    combined name has the form [tract; county; state], the name split
    returns; the county and state names, trimmed, are under
    [County_Name] and [State_Name]; the combined field and the tract
    name are both removed; every other field is kept. *)
Theorem C2_name_split_keeps_county_and_state (df : DataFrame) :
  "NAME" ∈ columns df ->
  records df <> [] ->
  Forall (fun r => exists t c s,
              r !! "NAME" = Some (Str (combined_name t c s)) /\
              sep_free t /\ sep_free c /\ sep_free s) (records df) ->
  exists out,
    preprocess_name_column df = Ok out /\
    ("County_Name" ∈ columns out) /\ ("State_Name" ∈ columns out) /\
    ("NAME" ∉ columns out) /\ ("Census_Tract" ∉ columns out) /\
    Forall2 (fun r r' =>
               exists t c s,
                 r !! "NAME" = Some (Str (combined_name t c s)) /\
                 sep_free t /\ sep_free c /\ sep_free s /\
                 r' !! "County_Name" = Some (Str (PyStr.strip c)) /\
                 r' !! "State_Name" = Some (Str (PyStr.strip s)) /\
                 r' !! "NAME" = None /\
                 r' !! "Census_Tract" = None /\
                 forall k,
                   k ∉ ["NAME"; "Census_Tract"; "County_Name"; "State_Name"] ->
                   r' !! k = r !! k)
      (records df) (records out).
Proof.
  intros Hname Hne Hall. eexists. split.
  { apply preprocess_records; [done|]. apply split_width_all_three; [done|].
    eapply Forall_impl; [exact Hall|].
    intros r (t & c & s & Hr & Ht & Hc & Hs).
    by destruct (name_part_combined r t c s). }
  cbn [columns records]. rewrite !name_columns_elem.
  split; [split; [by split | auto] |].
  split; [split; [by split | auto] |].
  split; [by intros [[_ ?] _] |].
  split; [by intros [[? _] _] |].
  apply Forall2_fmap_r, Forall_Forall2_diag.
  eapply Forall_impl; [exact Hall|].
  intros r (t & c & s & Hr & Ht & Hc & Hs). exists t, c, s.
  destruct (name_part_combined r t c s) as (_ & _ & H1 & H2); [done..|].
  destruct (name_record_spec r) as (Hcn & Hsn & Hn & Hct & Hk).
  rewrite Hcn, Hsn, H1, H2. done.
Qed.

Lemma C2_name_split_keeps_county_and_state_witness :
  returns (preprocess_name_column abc_frame).
Proof.
  destruct (C2_name_split_keeps_county_and_state abc_frame)
    as (out & Hout & _).
  - cbn. apply list_elem_of_singleton. reflexivity.
  - discriminate.
  - repeat constructor. exists "A", "B", "C".
    split; [reflexivity|]. by vm_compute.
  - by exists out.
Defined.

(** C2 as stated fails: after the split of ["A; B; C"], no field of the
    record holds the tract name ["A"]. *)
Lemma C2_tract_name_is_dropped : ~ keeps_three_names abc_frame "A" "B" "C".
Proof.
  intros (out & r & Hout & Hrec & [k Hk] & _).
  rewrite preprocess_records in Hout;
    [| cbn; by apply list_elem_of_singleton | by vm_compute].
  injection Hout as <-. cbn [records abc_frame fmap list_fmap] in Hrec.
  injection Hrec as <-.
  destruct (name_record_spec {[ "NAME" := Str "A; B; C" ]})
    as (Hcn & Hsn & Hn & Hct & Hother).
  destruct (decide (k = "County_Name")) as [->|?];
    [rewrite Hcn in Hk; vm_compute in Hk; discriminate|].
  destruct (decide (k = "State_Name")) as [->|?];
    [rewrite Hsn in Hk; vm_compute in Hk; discriminate|].
  destruct (decide (k = "NAME")) as [->|?]; [congruence|].
  destruct (decide (k = "Census_Tract")) as [->|?]; [congruence|].
  rewrite Hother in Hk.
  - by rewrite lookup_singleton_ne in Hk.
  - rewrite !elem_of_cons, elem_of_nil. tauto.
Qed.




(** C5. The population pipeline on the scenario: one record, with the
    identifier columns first and the coded column renamed. *)
Theorem C5_population_scenario :
  exists out r,
    clean_population_distribution_data scenario_api = Ok out /\
    (df ← load_dataframe scenario_response;
     clean_frames dp_dictionary [("California", df)]) = Ok out /\
    columns out = scenario_columns /\
    records out = [r] /\
    values out = [scenario_row] /\
    r !! "geo_id" = Some (Str "06001000100") /\
    r !! "State_Name" = Some (Str "State Y") /\
    r !! "County_Name" = Some (Str "County X") /\
    r !! "white_population" = Some (Str "523").
Proof.
  eexists _, _. split; [vm_compute; reflexivity|].
  split; [vm_compute; reflexivity|].
  split; [reflexivity|]. split; [reflexivity|].
  repeat split; vm_compute; reflexivity.
Qed.

Lemma add_geo_id_inv (df out : DataFrame) (s c t : string) :
  add_geo_id df s c t = Ok out ->
  out = mkFrame (set_label "geo_id" (columns df))
          (geo_record s c t <$> records df).
Proof.
  intros H.
  destruct (decide (s ∈ columns df)) as [Hs|Hs];
    [|unfold add_geo_id in H; by rewrite getitem_Raise in H].
  destruct (decide (c ∈ columns df)) as [Hc|Hc].
  - destruct (decide (t ∈ columns df)) as [Ht|Ht].
    + rewrite add_geo_id_records in H by done. congruence.
    + unfold add_geo_id in H. rewrite (getitem_Ok s), data_bind_Ok in H by done.
      unfold astype_str in H.
      rewrite <- list_fmap_compose, setitem_fmap, data_bind_Ok in H.
      rewrite (set_label_in s) in H by done.
      rewrite (getitem_Ok c), data_bind_Ok in H by done.
      rewrite <- list_fmap_compose, setitem_fmap, data_bind_Ok in H.
      cbn [columns] in H. rewrite (set_label_in c) in H by done.
      by rewrite (getitem_Raise t) in H.
  - unfold add_geo_id in H. rewrite (getitem_Ok s), data_bind_Ok in H by done.
    unfold astype_str in H.
    rewrite <- list_fmap_compose, setitem_fmap, data_bind_Ok in H.
    rewrite (set_label_in s) in H by done.
    by rewrite (getitem_Raise c) in H.
Qed.

Lemma preprocess_inv (df out : DataFrame) :
  preprocess_name_column df = Ok out ->
  out = mkFrame (name_columns (columns df)) (name_record <$> records df).
Proof.
  intros H. destruct (decide ("NAME" ∈ columns df)) as [Hn|Hn];
    [|unfold preprocess_name_column in H; by rewrite getitem_Raise in H].
  destruct (decide (split_width (field "NAME" <$> records df) = 3)) as [E|E].
  - rewrite preprocess_records in H by done. congruence.
  - by rewrite preprocess_raises in H.
Qed.

(** C7. Whatever the order of the input columns, a table that the
    cleaning returns has the six identifier columns first, in the order
    of [DESIRED_COLUMNS], followed by the other input columns (renamed,
    the combined name apart) in the order the input has them. *)
Theorem C7_identifier_columns_lead (dictionary : gmap string string)
    (dataframes : list (string * DataFrame)) (out : DataFrame) :
  clean_frames dictionary dataframes = Ok out ->
  columns out
  = ["geo_id"; "state"; "State_Name"; "county"; "County_Name"; "tract"]
    ++ filter (fun c => c ∉ DESIRED_COLUMNS ++ ["NAME"; "Census_Tract"])
         (union_labels
            ((fun p => rename (dict_get dictionary) p.2) <$> dataframes)).
Proof.
  unfold clean_frames. intros H.
  destruct (concat _) as [compiled|] eqn:Hc; [|done].
  rewrite data_bind_Ok in H.
  destruct (add_geo_id _ _ _ _) as [with_id|] eqn:Hg; [|done].
  rewrite data_bind_Ok in H.
  destruct (preprocess_name_column _) as [named|] eqn:Hp; [|done].
  rewrite data_bind_Ok in H.
  apply select_Ok in H. apply preprocess_inv in Hp. apply add_geo_id_inv in Hg.
  apply concat_Ok in Hc. subst named with_id. cbn [columns] in H.
  assert (forall l : list (string * DataFrame),
            ((fun '(state, dataframe) =>
                (state, rename (dict_get dictionary) dataframe)) <$> l).*2
            = (fun p => rename (dict_get dictionary) p.2) <$> l) as Heq.
  { intros l. rewrite <- list_fmap_compose. apply list_fmap_ext.
    by intros i [st d] _. }
  rewrite Heq in Hc.
  rewrite H, Hc. unfold DESIRED_COLUMNS at 1. f_equal.
  unfold name_columns. rewrite list_filter_filter.
  rewrite !filter_set_label.
  - apply list_filter_iff. intros x.
    rewrite elem_of_app, !elem_of_cons, !elem_of_nil. tauto.
  - intros [H1 _]. apply H1. unfold DESIRED_COLUMNS. rewrite !elem_of_cons. tauto.
  - intros [_ H1]. apply H1. rewrite !elem_of_cons. tauto.
  - intros [H1 _]. apply H1. unfold DESIRED_COLUMNS. rewrite !elem_of_cons. tauto.
  - intros [H1 _]. apply H1. unfold DESIRED_COLUMNS. rewrite !elem_of_cons. tauto.
Qed.

Lemma C7_identifier_columns_lead_witness :
  exists df out,
    load_dataframe shuffled_response = Ok df /\
    clean_frames dp_dictionary [("California", df)] = Ok out /\
    columns out = scenario_columns.
Proof.
  destruct (load_dataframe shuffled_response) as [df|e] eqn:Hdf;
    [|vm_compute in Hdf; discriminate].
  destruct (clean_frames dp_dictionary [("California", df)]) as [out|e] eqn:H.
  - exists df, out. split; [done|]. split; [done|].
    rewrite (C7_identifier_columns_lead _ _ _ H).
    vm_compute in Hdf. injection Hdf as <-. by vm_compute.
  - vm_compute in Hdf. injection Hdf as <-. vm_compute in H. discriminate.
Defined.

(** *** The outer join *)

Lemma key_eq_sym (a b : cell) : key_eq a b = key_eq b a.
Proof.
  destruct a as [x| |], b as [y| |]; try done. simpl.
  destruct (decide (x = y)) as [->|Hne]; [done|].
  rewrite !bool_decide_eq_false_2; done.
Qed.

Lemma same_key_sym (on : list string) (l r : gmap string cell) :
  same_key on l r = same_key on r l.
Proof.
  unfold same_key. induction on as [|k on IH]; [done|].
  simpl. by rewrite IH, key_eq_sym.
Qed.

Lemma same_key_ext (on : list string) (l l' r : gmap string cell) :
  (forall k, k ∈ on -> field k l = field k l') ->
  same_key on l r = same_key on l' r.
Proof.
  unfold same_key. induction on as [|k on IH]; [done|]. intros H. simpl.
  rewrite H by left. f_equal. apply IH. intros k' Hk'. apply H. by right.
Qed.

Lemma filter_none {A : Type} (P : A -> Prop) `{!forall x, Decision (P x)}
    (l : list A) :
  Forall (fun x => ~ P x) l -> filter P l = [].
Proof.
  induction 1 as [|x l Hx Hl IH]; [done|].
  by rewrite filter_cons_False.
Qed.

Section merge_facts.
Context (on : list string) (left right : DataFrame).
Hypothesis on_left : Forall (fun k => k ∈ columns left) on.
Hypothesis on_right : Forall (fun k => k ∈ columns right) on.
Hypothesis disjoint_rest :
  forall c, c ∈ columns left -> c ∈ columns right -> c ∈ on.

Lemma left_label_id (c : string) :
  c ∈ columns left -> left_label on left right c = c.
Proof.
  intros Hc. unfold left_label, clash.
  destruct (decide (c ∈ columns right)) as [Hr|Hr].
  - rewrite (bool_decide_eq_false_2 (c ∉ on)); [done|].
    intros Hn. apply Hn. by apply disjoint_rest.
  - rewrite (bool_decide_eq_false_2 (c ∈ columns right)) by done.
    by rewrite andb_false_r.
Qed.

Lemma elem_of_right_rest (c : string) :
  c ∈ right_rest on right <-> (c ∉ on) /\ (c ∈ columns right).
Proof. unfold right_rest. apply (list_elem_of_filter (fun c => c ∉ on)). Qed.

Lemma right_rest_not_left (c : string) :
  c ∈ right_rest on right -> c ∉ columns left.
Proof.
  rewrite elem_of_right_rest. intros [Hn Hr] Hl.
  apply Hn. by apply disjoint_rest.
Qed.

Lemma right_label_id (c : string) :
  c ∈ right_rest on right -> right_label on left right c = c.
Proof.
  intros Hc. unfold right_label, clash.
  rewrite (bool_decide_eq_false_2 (c ∈ columns left));
    [by rewrite andb_false_r | by apply right_rest_not_left].
Qed.

Lemma left_part_eq (l : gmap string cell) :
  left_part on left right l = reindex (columns left) l.
Proof.
  unfold left_part, reindex. f_equal. apply Forall_fmap_ext_1, Forall_forall.
  intros c Hc. by rewrite left_label_id.
Qed.

Lemma right_part_eq (r : gmap string cell) :
  right_part on left right r = reindex (right_rest on right) r.
Proof.
  unfold right_part, reindex. f_equal. apply Forall_fmap_ext_1, Forall_forall.
  intros c Hc. by rewrite right_label_id.
Qed.

Lemma right_missing_lookup (c : string) :
  right_missing on left right !! c
  = if decide (c ∈ right_rest on right) then Some NaN else None.
Proof.
  unfold right_missing.
  rewrite <- (lookup_labelled (fun _ => NaN) (right_rest on right) c).
  do 2 f_equal. apply Forall_fmap_ext_1, Forall_forall.
  intros c' Hc'. by rewrite right_label_id.
Qed.

Lemma left_of_right_lookup (r : gmap string cell) (c : string) :
  left_of_right on left right r !! c
  = if decide (c ∈ columns left)
    then Some (if bool_decide (c ∈ on) then field c r else NaN)
    else None.
Proof.
  unfold left_of_right.
  rewrite <- (lookup_labelled
                (fun c => if bool_decide (c ∈ on) then field c r else NaN)
                (columns left) c).
  do 2 f_equal. apply Forall_fmap_ext_1, Forall_forall.
  intros c' Hc'. by rewrite left_label_id.
Qed.

(** The join returns when both frames have the key columns. *)
Lemma merge_outer_Ok :
  merge_outer on left right
  = Ok (mkFrame (columns left ++ right_rest on right)
          ((records left ≫= join_left on left right)
           ++ ((fun r => left_of_right on left right r
                         ∪ right_part on left right r)
                 <$> unmatched_right on left right))).
Proof.
  unfold merge_outer.
  assert (list_find (fun k => k ∉ columns left) on = None) as ->.
  { apply list_find_None. eapply Forall_impl; [exact on_left|]. by intros k ? ?. }
  assert (list_find (fun k => k ∉ columns right) on = None) as ->.
  { apply list_find_None. eapply Forall_impl; [exact on_right|]. by intros k ? ?. }
  do 3 f_equal.
  - rewrite <- (list_fmap_id (columns left)) at 2.
    apply Forall_fmap_ext_1, Forall_forall. intros c Hc. by apply left_label_id.
  - rewrite <- (list_fmap_id (right_rest on right)) at 2.
    apply Forall_fmap_ext_1, Forall_forall. intros c Hc. by apply right_label_id.
Qed.

Context (out : DataFrame).
Hypothesis merged : merge_outer on left right = Ok out.

Lemma merged_columns : columns out = columns left ++ right_rest on right.
Proof using All. rewrite merge_outer_Ok in merged. by injection merged as <-. Qed.

(** A left record without a match is kept, with the other side's
    remaining columns missing. *)
Lemma left_only_kept (l : gmap string cell) :
  l ∈ records left ->
  Forall (fun r => same_key on l r = false) (records right) ->
  exists m, m ∈ records out /\
    (forall c, c ∈ columns left -> m !! c = Some (field c l)) /\
    (forall c, c ∈ right_rest on right -> m !! c = Some NaN).
Proof using All.
  intros Hl Hno. rewrite merge_outer_Ok in merged. injection merged as <-.
  exists (left_part on left right l ∪ right_missing on left right).
  cbn [records]. split.
  - apply elem_of_app. left. apply list_elem_of_bind. exists l.
    split; [|done]. unfold join_left. rewrite filter_none; [left|].
    eapply Forall_impl; [exact Hno|]. intros r Hr. by rewrite Hr.
  - split.
    + intros c Hc. apply lookup_union_Some_l.
      by rewrite left_part_eq, lookup_reindex, decide_True.
    + intros c Hc. rewrite lookup_union_r.
      * by rewrite right_missing_lookup, decide_True.
      * rewrite left_part_eq, lookup_reindex, decide_False; [done|].
        by apply right_rest_not_left.
Qed.

(** A right record without a match is kept, with its key, and with
    the left side's other columns missing. *)
Lemma right_only_kept (r : gmap string cell) :
  r ∈ records right ->
  Forall (fun l => same_key on l r = false) (records left) ->
  exists m, m ∈ records out /\
    (forall c, c ∈ right_rest on right -> m !! c = Some (field c r)) /\
    (forall k, k ∈ on -> m !! k = Some (field k r)) /\
    (forall c, c ∈ columns left -> c ∉ on -> m !! c = Some NaN).
Proof using All.
  intros Hr Hno. rewrite merge_outer_Ok in merged. injection merged as <-.
  exists (left_of_right on left right r ∪ right_part on left right r).
  cbn [records]. split.
  - apply elem_of_app. right. apply list_elem_of_fmap. exists r.
    split; [done|]. unfold unmatched_right.
    by apply (list_elem_of_filter
                (fun r => Forall (fun l => same_key on l r = false)
                            (records left))).
  - split; [|split].
    + intros c Hc. rewrite lookup_union_r.
      * by rewrite right_part_eq, lookup_reindex, decide_True.
      * rewrite left_of_right_lookup, decide_False; [done|].
        by apply right_rest_not_left.
    + intros k Hk. apply lookup_union_Some_l.
      rewrite left_of_right_lookup, decide_True.
      * by rewrite bool_decide_eq_true_2.
      * by apply (proj1 (Forall_forall _ _) on_left).
    + intros c Hc Hn. apply lookup_union_Some_l.
      rewrite left_of_right_lookup, decide_True by done.
      by rewrite bool_decide_eq_false_2.
Qed.

(** The key of a merged record is the key of a record of one side. *)
Lemma merged_key_source (m : gmap string cell) :
  m ∈ records out ->
  (exists l, l ∈ records left /\ forall k, k ∈ on -> field k m = field k l) \/
  (exists r, r ∈ records right /\ forall k, k ∈ on -> field k m = field k r).
Proof using All.
  intros Hm. rewrite merge_outer_Ok in merged. injection merged as <-.
  cbn [records] in Hm. apply elem_of_app in Hm as [Hm|Hm].
  - left. apply list_elem_of_bind in Hm as (l & Hm & Hl). exists l.
    split; [done|]. intros k Hk.
    assert (k ∈ columns left) as Hkl
      by by apply (proj1 (Forall_forall _ _) on_left).
    apply field_lookup. unfold join_left in Hm.
    destruct (filter _ _) as [|r0 rs].
    + apply list_elem_of_singleton in Hm as ->. apply lookup_union_Some_l.
      by rewrite left_part_eq, lookup_reindex, decide_True.
    + apply list_elem_of_fmap in Hm as (r & -> & _).
      apply lookup_union_Some_l.
      by rewrite left_part_eq, lookup_reindex, decide_True.
  - right. apply list_elem_of_fmap in Hm as (r & -> & Hr). exists r. split.
    + unfold unmatched_right in Hr.
      by apply (list_elem_of_filter
                  (fun r => Forall (fun l => same_key on l r = false)
                              (records left))) in Hr as [_ ?].
    + intros k Hk. apply field_lookup, lookup_union_Some_l.
      rewrite left_of_right_lookup, decide_True.
      * by rewrite bool_decide_eq_true_2.
      * by apply (proj1 (Forall_forall _ _) on_left).
Qed.
End merge_facts.

Lemma no_match_ext (r r' : gmap string cell) (df : DataFrame) :
  (forall k, k ∈ merge_keys -> field k r' = field k r) ->
  no_match r df -> no_match r' df.
Proof.
  intros H Hno. unfold no_match in *. eapply Forall_impl; [exact Hno|].
  intros x Hx. by rewrite (same_key_ext _ r' r).
Qed.

(** C8. The merge is an outer join on the six identifier columns: when
    the three tables have the key columns and share no other column,
    [merge_census] returns, and a record whose key is in one table only
    is in the merged table with its own values, the other columns of the
    two other tables being missing. *)
Theorem C8_outer_join_keeps_unmatched (dp dhc cre : DataFrame) :
  Forall (fun k => k ∈ columns dp) merge_keys ->
  Forall (fun k => k ∈ columns dhc) merge_keys ->
  Forall (fun k => k ∈ columns cre) merge_keys ->
  (forall c, c ∈ columns dp -> c ∈ columns dhc -> c ∈ merge_keys) ->
  (forall c, c ∈ columns dp -> c ∈ columns cre -> c ∈ merge_keys) ->
  (forall c, c ∈ columns dhc -> c ∈ columns cre -> c ∈ merge_keys) ->
  exists merged,
    merge_census dp dhc cre = Ok merged /\
    (forall r, r ∈ records dp -> no_match r dhc -> no_match r cre ->
       exists m, m ∈ records merged /\
         (forall c, c ∈ columns dp -> m !! c = Some (field c r)) /\
         (forall c, c ∈ columns dhc \/ c ∈ columns cre ->
                    c ∉ merge_keys -> m !! c = Some NaN)) /\
    (forall r, r ∈ records dhc -> no_match r dp -> no_match r cre ->
       exists m, m ∈ records merged /\
         (forall c, c ∈ columns dhc -> m !! c = Some (field c r)) /\
         (forall c, c ∈ columns dp \/ c ∈ columns cre ->
                    c ∉ merge_keys -> m !! c = Some NaN)) /\
    (forall r, r ∈ records cre -> no_match r dp -> no_match r dhc ->
       exists m, m ∈ records merged /\
         (forall c, c ∈ columns cre -> m !! c = Some (field c r)) /\
         (forall c, c ∈ columns dp \/ c ∈ columns dhc ->
                    c ∉ merge_keys -> m !! c = Some NaN)).
Proof.
  intros Kdp Kdhc Kcre D1 D2 D3. unfold merge_census.
  destruct (merge_outer merge_keys dp dhc) as [first|] eqn:M1;
    [|by rewrite merge_outer_Ok in M1].
  rewrite data_bind_Ok.
  pose proof (merged_columns _ _ _ Kdp Kdhc D1 _ M1) as C1.
  assert (Forall (fun k => k ∈ columns first) merge_keys) as Kfirst.
  { eapply Forall_impl; [exact Kdp|]. intros k Hk. rewrite C1.
    apply elem_of_app. by left. }
  assert (forall c, c ∈ columns first -> c ∈ columns cre -> c ∈ merge_keys)
    as D4.
  { intros c Hc. rewrite C1 in Hc. apply elem_of_app in Hc as [Hc|Hc]; [auto|].
    apply elem_of_right_rest in Hc as [_ Hc]. auto. }
  destruct (merge_outer merge_keys first cre) as [merged|] eqn:M2;
    [|by rewrite merge_outer_Ok in M2].
  exists merged. split; [done|].
  assert (forall c, c ∈ columns dhc -> c ∉ merge_keys ->
                    c ∈ right_rest merge_keys dhc) as Rdhc
    by (intros c ? ?; by apply elem_of_right_rest).
  assert (forall c, c ∈ columns cre -> c ∉ merge_keys ->
                    c ∈ right_rest merge_keys cre) as Rcre
    by (intros c ? ?; by apply elem_of_right_rest).
  assert (forall k, k ∈ merge_keys -> k ∈ columns dp) as Kdp'
    by (by apply Forall_forall).
  split; [|split].
  - intros r Hr N1 N2.
    destruct (left_only_kept _ _ _ Kdp Kdhc D1 _ M1 r Hr N1)
      as (m1 & Hm1 & L1 & Z1).
    destruct (left_only_kept _ _ _ Kfirst Kcre D4 _ M2 m1 Hm1)
      as (m2 & Hm2 & L2 & Z2).
    { apply (no_match_ext r); [|done].
      intros k Hk. apply field_lookup, L1. auto. }
    exists m2. split; [done|]. split.
    + intros c Hc. rewrite L2 by (rewrite C1; apply elem_of_app; by left).
      f_equal. apply field_lookup. auto.
    + intros c [Hc|Hc] Hn.
      * rewrite L2 by (rewrite C1; apply elem_of_app; right; auto).
        f_equal. apply field_lookup. auto.
      * auto.
  - intros r Hr N1 N2.
    destruct (right_only_kept _ _ _ Kdp Kdhc D1 _ M1 r Hr)
      as (m1 & Hm1 & R1 & K1 & Z1).
    { unfold no_match in N1. eapply Forall_impl; [exact N1|].
      intros l Hl. by rewrite same_key_sym. }
    destruct (left_only_kept _ _ _ Kfirst Kcre D4 _ M2 m1 Hm1)
      as (m2 & Hm2 & L2 & Z2).
    { apply (no_match_ext r); [|done].
      intros k Hk. apply field_lookup, K1. auto. }
    exists m2. split; [done|]. split.
    + intros c Hc. destruct (decide (c ∈ merge_keys)) as [Hk|Hk].
      * rewrite L2 by (rewrite C1; apply elem_of_app; left; auto).
        f_equal. apply field_lookup. auto.
      * rewrite L2 by (rewrite C1; apply elem_of_app; right; auto).
        f_equal. apply field_lookup. auto.
    + intros c [Hc|Hc] Hn.
      * rewrite L2 by (rewrite C1; apply elem_of_app; by left).
        f_equal. apply field_lookup. auto.
      * auto.
  - intros r Hr N1 N2.
    destruct (right_only_kept _ _ _ Kfirst Kcre D4 _ M2 r Hr)
      as (m2 & Hm2 & R2 & K2 & Z2).
    { apply Forall_forall. intros m1 Hm1.
      destruct (merged_key_source _ _ _ Kdp Kdhc D1 _ M1 m1 Hm1)
        as [(l & Hl & E)|(l & Hl & E)];
        rewrite (same_key_ext _ m1 l) by done; rewrite same_key_sym.
      - by apply (proj1 (Forall_forall _ _) N1).
      - by apply (proj1 (Forall_forall _ _) N2). }
    exists m2. split; [done|]. split.
    + intros c Hc. destruct (decide (c ∈ merge_keys)); auto.
    + intros c Hc Hn. apply Z2; [|done]. rewrite C1. apply elem_of_app.
      destruct Hc; [by left | right; auto].
Qed.

(** Closed decidable statements are settled by evaluation. *)
Ltac decide_vm :=
  match goal with
  | |- ?P => apply (bool_decide_unpack P); vm_compute; exact I
  end.

Lemma C8_outer_join_keeps_unmatched_witness :
  exists merged m,
    merge_census dp_only dhc_only cre_only = Ok merged /\
    m ∈ records merged /\
    m !! "geo_id" = Some (Str "06001000100") /\
    m !! "white_population" = Some (Str "523") /\
    m !! "owner_occupied_asian" = Some NaN /\
    m !! "PRED0_E" = Some NaN.
Proof.
  assert (forall A B : list string,
            Forall (fun c => c ∈ B -> c ∈ merge_keys) A ->
            forall c, c ∈ A -> c ∈ B -> c ∈ merge_keys) as Hd.
  { intros A B H c Hc. by apply (proj1 (Forall_forall _ _) H). }
  destruct (C8_outer_join_keeps_unmatched dp_only dhc_only cre_only)
    as (merged & Hm & Hdp & _).
  - decide_vm.
  - decide_vm.
  - decide_vm.
  - apply Hd. decide_vm.
  - apply Hd. decide_vm.
  - apply Hd. decide_vm.
  - destruct (Hdp (list_to_map
                     (zip (DESIRED_COLUMNS ++ ["white_population"])
                        [Str "06001000100"; Str "06"; Str "State Y"; Str "001";
                         Str "County X"; Str "000100"; Str "523"])))
      as (m & Hin & Hown & Hnull).
    + apply list_elem_of_singleton. reflexivity.
    + constructor; [by vm_compute | constructor].
    + constructor; [by vm_compute | constructor].
    + exists merged, m. split; [done|]. split; [done|].
      split; [|split; [|split]].
      * rewrite Hown; [by vm_compute | decide_vm].
      * rewrite Hown; [by vm_compute | decide_vm].
      * apply Hnull; [left|]; decide_vm.
      * apply Hnull; [right|]; decide_vm.
Defined.

End CensusFacts.

(** ** [sql_database.py] *)

Module LoaderFacts.
Import Sqlite Loader PyStrFacts.

(** *** Quoting *)

(** The empty string is among the quote characters, and it is in every
    string. *)
Lemma needs_quote_always (column : string) : needs_quote column = true.
Proof.
  unfold needs_quote, quote_chars. cbn [existsb].
  rewrite contains_empty. by rewrite !orb_true_r.
Qed.

Lemma quoted_always (column : string) :
  quoted column = dquote +:+ column +:+ dquote.
Proof. unfold quoted. by rewrite needs_quote_always. Qed.

Lemma remaining_columns_all_quoted (headers : list string) (pk : string) :
  remaining_columns headers pk
  = (fun column => dquote +:+ column +:+ dquote)
      <$> filter (fun column => column <> pk) headers.
Proof.
  unfold remaining_columns. apply list_fmap_ext. intros i c _.
  apply quoted_always.
Qed.

(** C1. The column [state] has none of the four characters, and the
    statement generated for the header [geo_id, state] quotes it. *)
Theorem C1_plain_column_is_quoted :
  has_special_char "state" = false /\
  remaining_columns ["geo_id"; "state"] "geo_id"
  = [dquote +:+ "state" +:+ dquote] /\
  table_creation_sql "census_data" ["geo_id"; "state"] "geo_id"
  = "CREATE TABLE IF NOT EXISTS census_data (geo_id INTEGER PRIMARY KEY, "
    +:+ dquote +:+ "state" +:+ dquote +:+ ")".
Proof. repeat split; by vm_compute. Qed.

(** *** The primary key and the skipped files *)


Lemma find_primary_key_Some (headers : list string) (pk : string) :
  find_primary_key headers = Some pk <->
  exists before after,
    headers = before ++ pk :: after /\ matches_geo_id pk = true /\
    Forall (fun h => matches_geo_id h = false) before.
Proof.
  induction headers as [|h headers IH]; simpl.
  - split; [done | by intros ([|? ?] & ? & ? & _)].
  - destruct (matches_geo_id h) eqn:Hh.
    + split.
      * intros [= ->]. by exists [], headers.
      * intros ([|b before] & after & E & Hpk & Hb).
        -- by injection E as ->.
        -- injection E as -> _. apply Forall_cons in Hb as [Hb _]. congruence.
    + rewrite IH. split.
      * intros (before & after & -> & Hpk & Hb). exists (h :: before), after.
        split; [done|]. split; [done|]. by constructor.
      * intros ([|b before] & after & E & Hpk & Hb).
        -- injection E as -> _. congruence.
        -- injection E as -> ->. apply Forall_cons in Hb as [_ Hb].
           by exists before, after.
Qed.

(** A header matches when its lower-case form contains [geo_id]. *)
Lemma matches_geo_id_spec (header : string) :
  matches_geo_id header = true <->
  exists pre post, PyStr.lower header = pre +:+ "geo_id" +:+ post.
Proof. apply contains_spec. Qed.

Section loader_facts.
Variable accepts : string -> bool.
Variable rowid_of_text : string -> option Z.

End loader_facts.


(** *** Failing inserts *)

Section insert_facts.
Variable accepts : string -> bool.
Variable rowid_of_text : string -> option Z.

Lemma pk_conflict_raises (name : string) (row : list string)
    (db : gmap string table) :
  pk_conflict rowid_of_text name row db ->
  execute_insert rowid_of_text name row db = Raise IntegrityError.
Proof.
  intros (t & v & rest & k & old & Hdb & -> & Hlen & Hk & Hold).
  unfold execute_insert. by rewrite Hdb, decide_True, Hk, Hold.
Qed.

Lemma datatype_mismatch_raises (name : string) (row : list string)
    (db : gmap string table) :
  datatype_mismatch rowid_of_text name row db ->
  execute_insert rowid_of_text name row db = Raise IntegrityError.
Proof.
  intros (t & v & rest & Hdb & -> & Hlen & Hk).
  unfold execute_insert. by rewrite Hdb, decide_True, Hk.
Qed.

(** The engine raises an integrity error in exactly two cases; every
    other failure is an operational error. *)
Lemma execute_insert_raise_inv (name : string) (row : list string)
    (db : gmap string table) (e : exn) :
  execute_insert rowid_of_text name row db = Raise e ->
  (e = IntegrityError /\
   (pk_conflict rowid_of_text name row db \/
    datatype_mismatch rowid_of_text name row db)) \/
  (e = OperationalError /\
   ~ pk_conflict rowid_of_text name row db /\
   ~ datatype_mismatch rowid_of_text name row db).
Proof.
  unfold execute_insert. intros H.
  destruct (db !! fold_name name) as [t|] eqn:Hdb.
  - destruct (decide (length row = length (tbl_columns t))) as [Hlen|Hlen].
    + destruct row as [|v rest].
      * right. injection H as <-. split; [done|].
        split; [by intros (?&?&?&?&?&?&?&_) | by intros (?&?&?&?&?&_)].
      * destruct (rowid_of_text v) as [k|] eqn:Hk.
        -- destruct (tbl_rows t !! k) as [old|] eqn:Hold; [|done].
           left. injection H as <-. split; [done|]. left.
           by exists t, v, rest, k, old.
        -- left. injection H as <-. split; [done|]. right.
           by exists t, v, rest.
    + right. injection H as <-. split; [done|]. split.
      * intros (t' & ? & ? & ? & ? & Hdb' & _ & Hlen' & _). congruence.
      * intros (t' & ? & ? & Hdb' & _ & Hlen' & _). congruence.
  - right. injection H as <-. split; [done|]. split.
    + intros (? & ? & ? & ? & ? & ? & _). congruence.
    + intros (? & ? & ? & ? & _). congruence.
Qed.

Lemma count_mismatch_raises (name : string) (row : list string)
    (db : gmap string table) :
  count_mismatch name row db ->
  execute_insert rowid_of_text name row db = Raise OperationalError.
Proof.
  intros (t & Hdb & Hlen). unfold execute_insert.
  by rewrite Hdb, decide_False.
Qed.

(** An exception of the row loop leaves the file loop and the run. *)
Lemma insert_rows_raise_aborts (root file : string)
    (headers : list string) (rows : list (list string))
    (files : list csv_file) (more : list (string * list csv_file))
    (pk : string) (db0 db : gmap string table) (e : exn) :
  PyStr.endswith ".csv" file = true ->
  find_primary_key headers = Some pk ->
  execute_create accepts
    (table_creation_sql (PyStr.splitext_root file) headers pk)
    (PyStr.splitext_root file) (table_columns headers pk) db0 = Ok db ->
  insert_rows rowid_of_text (PyStr.splitext_root file) rows db = Raise e ->
  insert_tables_to_database accepts rowid_of_text
    ((root, (file, headers :: rows) :: files) :: more) db0 = Raise e.
Proof.
  intros Hcsv Hpk Hcreate Hrows.
  unfold insert_tables_to_database. cbn [mbind list_bind snd app load_files].
  assert (load_file accepts rowid_of_text (file, headers :: rows)
            (mkState db0 []) = Raise e) as ->; [|done].
  unfold load_file. rewrite Hcsv, Hpk. cbn [conn].
  rewrite Hcreate. cbn [mbind result_bind]. by rewrite Hrows.
Qed.

(** C4 (amended). An insert that raises an integrity error (the key
    is already in the table, or the value bound to the integer
    primary key is refused) is discarded: the tables are unchanged
    and the loop goes on with the next row.  Every other failing
    insert raises an operational error, which leaves the loop and
    aborts the run. *)
Theorem C4_integrity_errors_are_skipped (table_name : string)
    (row : list string) (rows : list (list string))
    (db : gmap string table) :
  (pk_conflict rowid_of_text table_name row db \/
   datatype_mismatch rowid_of_text table_name row db ->
   execute_insert rowid_of_text table_name row db = Raise IntegrityError /\
   insert_rows rowid_of_text table_name (row :: rows) db
   = insert_rows rowid_of_text table_name rows db) /\
  (forall e,
     execute_insert rowid_of_text table_name row db = Raise e ->
     ~ pk_conflict rowid_of_text table_name row db ->
     ~ datatype_mismatch rowid_of_text table_name row db ->
     e = OperationalError /\
     insert_rows rowid_of_text table_name (row :: rows) db = Raise e /\
     forall root file headers files more pk db0,
       table_name = PyStr.splitext_root file ->
       PyStr.endswith ".csv" file = true ->
       find_primary_key headers = Some pk ->
       execute_create accepts (table_creation_sql table_name headers pk)
         table_name (table_columns headers pk) db0 = Ok db ->
       insert_tables_to_database accepts rowid_of_text
         ((root, (file, headers :: row :: rows) :: files) :: more) db0
       = Raise e).
Proof.
  split.
  - intros H.
    assert (execute_insert rowid_of_text table_name row db
            = Raise IntegrityError) as E
      by (destruct H; [by apply pk_conflict_raises
                      | by apply datatype_mismatch_raises]).
    split; [exact E|]. cbn [insert_rows]. by rewrite E.
  - intros e He Hc Hm.
    destruct (execute_insert_raise_inv _ _ _ _ He) as [[_ [?|?]]|[-> _]];
      [done | done |].
    assert (insert_rows rowid_of_text table_name (row :: rows) db
            = Raise OperationalError) as E
      by (cbn [insert_rows]; by rewrite He).
    split; [done|]. split; [exact E|].
    intros root file headers files more pk db0 -> Hcsv Hpk Hcreate.
    by eapply insert_rows_raise_aborts.
Qed.
End insert_facts.

Lemma C4_integrity_errors_are_skipped_witness :
  insert_rows decimal_rowid "t" [["1"; "v"]; ["2"; "z"]] one_row_t
  = insert_rows decimal_rowid "t" [["2"; "z"]] one_row_t.
Proof.
  apply (C4_integrity_errors_are_skipped accept_all decimal_rowid).
  left. exists (mkTable ["geo_id"; "x"] {[ 1%Z := ["u"] ]}), "1", ["v"], 1%Z, ["u"].
  repeat split; by vm_compute.
Defined.

(** C4 as stated fails: a row whose key is not an integer is no key
    conflict, yet its insert error is caught and the loop goes on. *)
Lemma C4_datatype_mismatch_is_caught :
  ~ only_pk_conflict_is_caught decimal_rowid "t" ["abc"; "1"] [] empty_t.
Proof.
  intros H. specialize (H IntegrityError).
  assert (insert_rows decimal_rowid "t" [["abc"; "1"]] empty_t
          = Raise IntegrityError) as E.
  { apply H; [by vm_compute|].
    intros (t & v & rest & k & old & _ & Hrow & _ & Hk & _).
    injection Hrow as <- _. vm_compute in Hk. discriminate. }
  vm_compute in E. discriminate.
Qed.

(** *** Positional binding *)




Section binding_facts.
Variable rowid_of_text : string -> option Z.

End binding_facts.


End LoaderFacts.

(** ** [census_data.py]: loading, errors and invariants of the cleaning *)

Module CensusMore.
Import Pandas Census PandasFacts PyStrFacts CensusFacts.

(** *** [load_dataframe] *)

Lemma pad_row_full (n : nat) (row : list cell) :
  length row = n -> pad_row n row = row.
Proof. intros <-. unfold pad_row. by rewrite Nat.sub_diag, app_nil_r. Qed.

Lemma fields_of_zip (cols : list string) (vals : list cell) :
  NoDup cols -> length vals = length cols ->
  (fun c => field c (list_to_map (zip cols vals))) <$> cols = vals.
Proof.
  intros Hnd. revert vals.
  induction Hnd as [|c0 cols Hc0 Hnd IH]; intros [|v0 vals] Hlen; try done.
  cbn [zip zip_with list_to_map foldr fmap list_fmap]. f_equal.
  - apply field_insert.
  - etrans; [|apply (IH vals); simpl in Hlen; lia].
    apply Forall_fmap_ext_1, Forall_forall. intros c Hc.
    cbn [fst snd]. apply field_insert_ne. by intros ->.
Qed.

Lemma max_list_all (n : nat) (l : list nat) :
  l <> [] -> Forall (fun k => k = n) l -> max_list l = n.
Proof.
  intros Hne Hall. destruct Hall as [|k l -> Hall]; [done|].
  rewrite max_list_cons. assert (max_list l <= n); [|lia].
  apply max_list_le. eapply Forall_impl; [exact Hall|].
  intros k Hk. cbv beta in *. lia.
Qed.



(** X2. Round trip: for a header without a repeated label and data rows
    that all have the header's length, the frame that [load_dataframe]
    returns has exactly the data rows as its values. *)
Theorem X2_load_dataframe_round_trip (response : Response) :
  NoDup (header response) ->
  Forall (fun row => length row = length (header response)) (rows response) ->
  exists df,
    load_dataframe response = Ok df /\
    columns df = header response /\
    values df = rows response.
Proof.
  intros Hnd Hall. unfold load_dataframe, frame_of_rows.
  destruct (rows response) as [|row rs] eqn:Hrows; [by eexists|].
  rewrite decide_True.
  2:{ apply max_list_all; [done|]. by rewrite Forall_fmap. }
  eexists. split; [done|]. split; [done|].
  unfold values. cbn [columns records]. rewrite <- list_fmap_compose.
  rewrite <- (list_fmap_id (row :: rs)) at 2.
  apply Forall_fmap_ext_1. eapply Forall_impl; [exact Hall|].
  intros r Hr. unfold compose. cbv beta. rewrite pad_row_full by done.
  by apply fields_of_zip.
Qed.

Lemma X2_load_dataframe_round_trip_witness :
  exists df,
    load_dataframe scenario_response = Ok df /\
    values df = rows scenario_response.
Proof.
  destruct (X2_load_dataframe_round_trip scenario_response)
    as (df & Hdf & _ & Hval).
  - decide_vm.
  - repeat constructor.
  - by exists df.
Defined.

(** *** [add_geo_id] *)

Lemma add_geo_id_missing (df : DataFrame) (s c t : string) :
  (s ∉ columns df -> add_geo_id df s c t = Raise (KeyError s)) /\
  (s ∈ columns df -> c ∉ columns df ->
   add_geo_id df s c t = Raise (KeyError c)) /\
  (s ∈ columns df -> c ∈ columns df -> t ∉ columns df ->
   add_geo_id df s c t = Raise (KeyError t)).
Proof.
  unfold add_geo_id. split; [|split].
  - intros Hs. by rewrite getitem_Raise.
  - intros Hs Hc. rewrite (getitem_Ok s), data_bind_Ok by done.
    unfold astype_str.
    rewrite <- list_fmap_compose, setitem_fmap, data_bind_Ok.
    rewrite (set_label_in s) by done.
    by rewrite (getitem_Raise c).
  - intros Hs Hc Ht. rewrite (getitem_Ok s), data_bind_Ok by done.
    unfold astype_str.
    rewrite <- list_fmap_compose, setitem_fmap, data_bind_Ok.
    rewrite (set_label_in s) by done.
    rewrite (getitem_Ok c), data_bind_Ok by done.
    rewrite <- list_fmap_compose, setitem_fmap, data_bind_Ok.
    cbn [columns]. rewrite (set_label_in c) by done.
    by rewrite (getitem_Raise t).
Qed.

Lemma add_geo_id_Ok_columns (df out : DataFrame) (s c t : string) :
  add_geo_id df s c t = Ok out ->
  s ∈ columns df /\ c ∈ columns df /\ t ∈ columns df.
Proof.
  intros H. destruct (add_geo_id_missing df s c t) as (H1 & H2 & H3).
  destruct (decide (s ∈ columns df)) as [Hs|Hs]; [|rewrite H1 in H; done].
  destruct (decide (c ∈ columns df)) as [Hc|Hc]; [|rewrite H2 in H; done].
  destruct (decide (t ∈ columns df)) as [Ht|Ht]; [|rewrite H3 in H; done].
  done.
Qed.

(** X3. [add_geo_id] raises [KeyError] for the first of the state, county
    and tract columns, in this order, that the frame lacks. *)
Theorem X3_add_geo_id_missing_column (df : DataFrame) (s c t : string) :
  (s ∉ columns df -> add_geo_id df s c t = Raise (KeyError s)) /\
  (s ∈ columns df -> c ∉ columns df ->
   add_geo_id df s c t = Raise (KeyError c)) /\
  (s ∈ columns df -> c ∈ columns df -> t ∉ columns df ->
   add_geo_id df s c t = Raise (KeyError t)).
Proof. apply add_geo_id_missing. Qed.

Lemma X3_add_geo_id_missing_column_witness :
  add_geo_id (mkFrame ["NAME"; "state"; "tract"] []) "state" "county" "tract"
  = Raise (KeyError "county").
Proof.
  apply (X3_add_geo_id_missing_column
           (mkFrame ["NAME"; "state"; "tract"] []) "state" "county" "tract");
    decide_vm.
Defined.

Lemma set_label_idemp (c : string) (cols : list string) :
  set_label c (set_label c cols) = set_label c cols.
Proof. apply set_label_in, elem_of_set_label. by left. Qed.

Lemma py_str_field (k : string) (r : gmap string cell) (x : string) :
  r !! k = Some (Str x) -> py_str (field k r) = x.
Proof. intros H. by rewrite (field_lookup _ _ _ H). Qed.

Lemma geo_record_idemp (s c t : string) (r : gmap string cell) :
  s <> "geo_id" -> c <> "geo_id" -> t <> "geo_id" ->
  geo_record s c t (geo_record s c t r) = geo_record s c t r.
Proof.
  intros Hs Hc Ht.
  destruct (geo_record_spec s c t r Hs Hc Ht) as (A1 & B1 & C1 & G1 & O1).
  destruct (geo_record_spec s c t (geo_record s c t r) Hs Hc Ht)
    as (A2 & B2 & C2 & G2 & O2).
  rewrite (py_str_field _ _ _ A1), (py_str_field _ _ _ B1),
    (py_str_field _ _ _ C1) in *.
  apply map_eq. intros k.
  destruct (decide (k = s)) as [->|?]; [congruence|].
  destruct (decide (k = c)) as [->|?]; [congruence|].
  destruct (decide (k = t)) as [->|?]; [congruence|].
  destruct (decide (k = "geo_id")) as [->|?]; [congruence|].
  apply O2. rewrite !elem_of_cons, elem_of_nil. tauto.
Qed.

(** X4. [add_geo_id] is idempotent: applied to a frame it has returned,
    with the same code columns, it returns that frame again. *)
Theorem X4_add_geo_id_idempotent (df out : DataFrame) (s c t : string) :
  s <> "geo_id" -> c <> "geo_id" -> t <> "geo_id" ->
  add_geo_id df s c t = Ok out ->
  add_geo_id out s c t = Ok out.
Proof.
  intros Hs Hc Ht H.
  destruct (add_geo_id_Ok_columns _ _ _ _ _ H) as (Is & Ic & It).
  apply add_geo_id_inv in H. subst out.
  rewrite add_geo_id_records by (cbn [columns]; apply elem_of_set_label; by right).
  cbn [columns records]. rewrite set_label_idemp. do 2 f_equal.
  rewrite <- list_fmap_compose. apply list_fmap_ext. intros i r _.
  by apply geo_record_idemp.
Qed.

Lemma X4_add_geo_id_idempotent_witness :
  exists out,
    add_geo_id (mkFrame ["state"; "county"; "tract"]
                  [ {[ "state" := Str "06"; "county" := Str "001";
                       "tract" := PyNone ]} ])
      "state" "county" "tract" = Ok out /\
    add_geo_id out "state" "county" "tract" = Ok out.
Proof.
  eexists. split; [by vm_compute|].
  apply (X4_add_geo_id_idempotent
           (mkFrame ["state"; "county"; "tract"]
              [ {[ "state" := Str "06"; "county" := Str "001";
                   "tract" := PyNone ]} ])); [done..|].
  by vm_compute.
Defined.



(** *** [preprocess_name_column] *)

Lemma split_width_empty : split_width (field "NAME" <$> []) = 0.
Proof. reflexivity. Qed.

Lemma split_width_wide (recs : list (gmap string cell)) :
  Exists (fun r => 3 < name_parts r) recs ->
  split_width (field "NAME" <$> recs) <> 3.
Proof.
  intros H. rewrite split_width_parts. apply Exists_exists in H as (r & Hr & Hlt).
  assert (name_parts r <= max_list (name_parts <$> recs)); [|lia].
  apply max_list_elem_of_le, list_elem_of_fmap. by exists r.
Qed.

(** X6. The name split raises [KeyError] on a frame without a [NAME]
    column; with the column it raises [ValueError] on a frame without
    rows, and whenever some name has more than three parts. *)
Theorem X6_name_split_errors (df : DataFrame) :
  ("NAME" ∉ columns df ->
   preprocess_name_column df = Raise (KeyError "NAME")) /\
  ("NAME" ∈ columns df ->
   records df = [] \/ Exists (fun r => 3 < name_parts r) (records df) ->
   preprocess_name_column df = Raise ValueError).
Proof.
  split.
  - intros H. unfold preprocess_name_column. by rewrite getitem_Raise.
  - intros Hn [E|E]; apply preprocess_raises; try done.
    + by rewrite E.
    + by apply split_width_wide.
Qed.

Lemma X6_name_split_errors_witness :
  preprocess_name_column
    (mkFrame ["NAME"] [ {[ "NAME" := Str "Tract 1; Block 2; County X; State Y" ]} ])
  = Raise ValueError.
Proof.
  apply (X6_name_split_errors
           (mkFrame ["NAME"]
              [ {[ "NAME" := Str "Tract 1; Block 2; County X; State Y" ]} ])).
  - decide_vm.
  - right. left. vm_compute. lia.
Defined.



(** *** Trimming *)

Lemma lstrip_first (s : string) (c : ascii) (rest : string) :
  PyStr.lstrip s = String c rest -> PyStr.is_space c = false.
Proof.
  induction s as [|a s IH]; [done|]. cbn [PyStr.lstrip].
  destruct (PyStr.is_space a) eqn:Ha; [done|]. by intros [= <- _].
Qed.

Lemma rstrip_cons (a : ascii) (s : string) :
  PyStr.rstrip (String a s)
  = match PyStr.rstrip s with
    | EmptyString =>
        if PyStr.is_space a then EmptyString else String a EmptyString
    | r => String a r
    end.
Proof. reflexivity. Qed.

Lemma rstrip_first (s : string) (c : ascii) (rest : string) :
  (forall c' rest', s = String c' rest' -> PyStr.is_space c' = false) ->
  PyStr.rstrip s = String c rest -> PyStr.is_space c = false.
Proof.
  destruct s as [|a s]; [done|]. intros Ha. rewrite rstrip_cons.
  specialize (Ha a s eq_refl). rewrite Ha.
  destruct (PyStr.rstrip s); by intros [= <- _].
Qed.

Lemma rstrip_last (s pre : string) (c : ascii) :
  PyStr.rstrip s = pre +:+ String c EmptyString -> PyStr.is_space c = false.
Proof.
  revert pre. induction s as [|a s IH]; intros pre.
  - by destruct pre.
  - rewrite rstrip_cons. destruct (PyStr.rstrip s) as [|b r] eqn:Hr.
    + destruct (PyStr.is_space a) eqn:Ha; [by destruct pre|].
      destruct pre as [|p [|q pre]]; [|done..]. by intros [= <-].
    + destruct pre as [|p pre]; [done|]. rewrite app_cons. intros [= _ E].
      by apply (IH pre).
Qed.

Lemma rstrip_idemp (s : string) : PyStr.rstrip (PyStr.rstrip s) = PyStr.rstrip s.
Proof.
  induction s as [|a s IH]; [done|]. rewrite rstrip_cons.
  destruct (PyStr.rstrip s) as [|b r] eqn:Hr.
  - destruct (PyStr.is_space a) eqn:Ha; [done|]. rewrite rstrip_cons.
    cbn [PyStr.rstrip]. by rewrite Ha.
  - rewrite rstrip_cons. by rewrite IH.
Qed.

Lemma lstrip_id (s : string) :
  (forall c rest, s = String c rest -> PyStr.is_space c = false) ->
  PyStr.lstrip s = s.
Proof.
  destruct s as [|a s]; [done|]. intros H. cbn [PyStr.lstrip].
  by rewrite (H a s eq_refl).
Qed.

Lemma strip_trimmed (s : string) :
  let x := PyStr.strip s in
  PyStr.strip x = x /\
  (forall c rest, x = String c rest -> PyStr.is_space c = false) /\
  (forall pre c, x = pre +:+ String c EmptyString -> PyStr.is_space c = false).
Proof.
  unfold PyStr.strip. cbv zeta.
  assert (forall c rest, PyStr.rstrip (PyStr.lstrip s) = String c rest ->
                         PyStr.is_space c = false) as Hfirst.
  { intros c rest. apply rstrip_first. intros c' rest'. apply lstrip_first. }
  split; [|split].
  - rewrite lstrip_id by done. apply rstrip_idemp.
  - done.
  - intros pre c. apply rstrip_last.
Qed.

(** X8. After the name split, a county or state name that is present is
    trimmed: it begins and ends with a character that is not white space,
    and trimming it again changes nothing. *)
Theorem X8_names_are_trimmed (df out : DataFrame) :
  preprocess_name_column df = Ok out ->
  Forall (fun r' =>
            forall k x,
              k = "County_Name" \/ k = "State_Name" ->
              r' !! k = Some (Str x) ->
              PyStr.strip x = x /\
              (forall c rest, x = String c rest -> PyStr.is_space c = false) /\
              (forall pre c, x = pre +:+ String c EmptyString ->
                             PyStr.is_space c = false))
    (records out).
Proof.
  intros H. apply preprocess_inv in H. subst out. cbn [records].
  apply Forall_fmap, Forall_true. intros r. unfold compose. cbv beta.
  destruct (name_record_spec r) as (Hcn & Hsn & _).
  intros k x [->| ->] Hx.
  - rewrite Hcn in Hx. destruct (name_part 1 r) as [y| |]; try done.
    injection Hx as <-. apply strip_trimmed.
  - rewrite Hsn in Hx. destruct (name_part 2 r) as [y| |]; try done.
    injection Hx as <-. apply strip_trimmed.
Qed.

Lemma X8_names_are_trimmed_witness :
  exists out,
    preprocess_name_column
      (mkFrame ["NAME"] [ {[ "NAME" := Str "T;  Cook County ;  Illinois " ]} ])
    = Ok out /\
    Forall (fun r' =>
              forall x, r' !! "County_Name" = Some (Str x) -> PyStr.strip x = x)
      (records out).
Proof.
  destruct (preprocess_name_column
              (mkFrame ["NAME"]
                 [ {[ "NAME" := Str "T;  Cook County ;  Illinois " ]} ]))
    as [out|e] eqn:H; [|vm_compute in H; discriminate].
  exists out. split; [done|].
  eapply Forall_impl; [exact (X8_names_are_trimmed _ _ H)|].
  intros r' Hr x Hx. by apply (Hr "County_Name" x); [left|].
Defined.

(** *** The cleaning as a whole *)

Lemma select_inv (labels : list string) (df out : DataFrame) :
  select labels df = Ok out ->
  out = mkFrame labels (reindex labels <$> records df).
Proof.
  unfold select. destruct (list_find _ _) as [[? ?]|]; [done|].
  by intros [= <-].
Qed.

Lemma concat_inv (frames : list DataFrame) (out : DataFrame) :
  concat frames = Ok out ->
  out = mkFrame (union_labels frames)
          (frames ≫= fun df => reindex (union_labels frames) <$> records df).
Proof. destruct frames; [done|]. by intros [= <-]. Qed.

(** What a table returned by the cleaning is made of. *)
Lemma clean_frames_inv (dictionary : gmap string string)
    (dataframes : list (string * DataFrame)) (out : DataFrame) :
  clean_frames dictionary dataframes = Ok out ->
  let renamed := (fun p => rename (dict_get dictionary) p.2) <$> dataframes in
  let labels := union_labels renamed in
  let order :=
    DESIRED_COLUMNS
    ++ filter (fun col => col ∉ DESIRED_COLUMNS)
         (name_columns (set_label "geo_id" labels)) in
  out = mkFrame order
          (reindex order
             <$> (name_record
                    <$> (geo_record "state" "county" "tract"
                           <$> (renamed ≫= fun df =>
                                  reindex labels <$> records df)))).
Proof.
  unfold clean_frames. intros H.
  assert (forall l : list (string * DataFrame),
            ((fun '(state, dataframe) =>
                (state, rename (dict_get dictionary) dataframe)) <$> l).*2
            = (fun p => rename (dict_get dictionary) p.2) <$> l) as Heq.
  { intros l. rewrite <- list_fmap_compose. apply list_fmap_ext.
    by intros i [st d] _. }
  rewrite Heq in H.
  destruct (concat _) as [compiled|] eqn:Hc; [|done].
  rewrite data_bind_Ok in H.
  destruct (add_geo_id _ _ _ _) as [with_id|] eqn:Hg; [|done].
  rewrite data_bind_Ok in H.
  destruct (preprocess_name_column _) as [named|] eqn:Hp; [|done].
  rewrite data_bind_Ok in H.
  apply select_inv in H. apply preprocess_inv in Hp. apply add_geo_id_inv in Hg.
  apply concat_inv in Hc. by subst.
Qed.

Lemma length_bind {A B : Type} (f : A -> list B) (l : list A) :
  length (l ≫= f) = sum_list_with (fun x => length (f x)) l.
Proof.
  induction l as [|x l IH]; [done|].
  change ((x :: l) ≫= f) with (f x ++ (l ≫= f)).
  rewrite List.length_app, IH. reflexivity.
Qed.

(** X9. The cleaning neither drops nor adds a row: the table it returns
    has as many records as the frames of the states have together. *)
Theorem X9_cleaning_keeps_every_row (dictionary : gmap string string)
    (dataframes : list (string * DataFrame)) (out : DataFrame) :
  clean_frames dictionary dataframes = Ok out ->
  length (records out)
  = sum_list_with (fun p => length (records p.2)) dataframes.
Proof.
  intros H. apply clean_frames_inv in H. cbv zeta in H. subst out.
  cbn [records]. rewrite !length_fmap, length_bind.
  generalize (union_labels
                ((fun p => rename (dict_get dictionary) p.2) <$> dataframes)).
  intros cols. induction dataframes as [|p l IH]; [done|].
  cbn [fmap list_fmap sum_list_with]. rewrite IH. f_equal.
  unfold rename. cbn [records]. by rewrite !length_fmap.
Qed.

Lemma X9_cleaning_keeps_every_row_witness :
  exists df out,
    load_dataframe scenario_response = Ok df /\
    clean_frames dp_dictionary [("California", df); ("Florida", df)] = Ok out /\
    length (records out) = 2.
Proof.
  destruct (load_dataframe scenario_response) as [df|e] eqn:Hdf;
    [|vm_compute in Hdf; discriminate].
  destruct (clean_frames dp_dictionary [("California", df); ("Florida", df)])
    as [out|e] eqn:H.
  - exists df, out. split; [done|]. split; [done|].
    rewrite (X9_cleaning_keeps_every_row _ _ _ H).
    vm_compute in Hdf. injection Hdf as <-. reflexivity.
  - vm_compute in Hdf. injection Hdf as <-. vm_compute in H. discriminate.
Defined.

(** X10. Every record of a cleaned table has exactly the columns of the
    table; its state, county and tract codes are strings, never missing,
    and [geo_id] is their concatenation; the combined name and the tract
    name are gone. *)
Theorem X10_cleaned_records (dictionary : gmap string string)
    (dataframes : list (string * DataFrame)) (out : DataFrame) :
  clean_frames dictionary dataframes = Ok out ->
  Forall (fun r =>
            (forall k, is_Some (r !! k) <-> k ∈ columns out) /\
            (exists s c t,
               r !! "state" = Some (Str s) /\
               r !! "county" = Some (Str c) /\
               r !! "tract" = Some (Str t) /\
               r !! "geo_id" = Some (Str (s +:+ c +:+ t))) /\
            r !! "NAME" = None /\
            r !! "Census_Tract" = None)
    (records out).
Proof.
  intros H. apply clean_frames_inv in H. cbv zeta in H.
  set (order := DESIRED_COLUMNS ++ _) in H. subst out. cbn [records columns].
  do 3 apply Forall_fmap. apply Forall_true. intros r2. unfold compose.
  cbv beta. set (r1 := geo_record _ _ _ r2).
  assert (forall k, k ∈ DESIRED_COLUMNS -> k ∈ order) as Hin
    by (intros k Hk; apply elem_of_app; by left).
  assert (forall k, k = "NAME" \/ k = "Census_Tract" -> k ∉ order) as Hout.
  { intros k Hk. unfold order. rewrite elem_of_app.
    rewrite (list_elem_of_filter (fun col => col ∉ DESIRED_COLUMNS)).
    rewrite name_columns_elem. unfold DESIRED_COLUMNS.
    rewrite !elem_of_cons, elem_of_nil.
    intros [Hd|[_ [[? ?] _]]]; destruct Hk as [->| ->]; try done;
      repeat (destruct Hd as [Hd|Hd]; try done). }
  split; [|split; [|split]].
  - intros k. rewrite lookup_reindex. destruct (decide (k ∈ order)).
    + split; [done | by eexists].
    + split; [by intros [? ?] | done].
  - destruct (geo_record_spec "state" "county" "tract" r2)
      as (Hs & Hc & Ht & Hg & _); [done..|].
    destruct (name_record_spec r1) as (_ & _ & _ & _ & Hk).
    eexists _, _, _.
    rewrite !lookup_reindex, !decide_True
      by (apply Hin; unfold DESIRED_COLUMNS; rewrite !elem_of_cons; tauto).
    repeat split; f_equal; apply field_lookup; rewrite Hk; try done;
      rewrite !elem_of_cons, elem_of_nil; by intros [?|[?|[?|[?|?]]]].
  - rewrite lookup_reindex, decide_False; [done | apply Hout; by left].
  - rewrite lookup_reindex, decide_False; [done | apply Hout; by right].
Qed.

Lemma X10_cleaned_records_witness :
  exists df out,
    load_dataframe shuffled_response = Ok df /\
    clean_frames dp_dictionary [("California", df)] = Ok out /\
    Forall (fun r => r !! "NAME" = None) (records out).
Proof.
  destruct (load_dataframe shuffled_response) as [df|e] eqn:Hdf;
    [|vm_compute in Hdf; discriminate].
  destruct (clean_frames dp_dictionary [("California", df)]) as [out|e] eqn:H.
  - exists df, out. split; [done|]. split; [done|].
    eapply Forall_impl; [exact (X10_cleaned_records _ _ _ H)|].
    by intros r (_ & _ & ? & _).
  - vm_compute in Hdf. injection Hdf as <-. vm_compute in H. discriminate.
Defined.

(** *** Splitting *)

Lemma join_cons_char (c : ascii) (parts : list string) :
  parts <> [] ->
  PyStr.join PyStr.name_sep (PyStr.cons_char c parts)
  = String c (PyStr.join PyStr.name_sep parts).
Proof. destruct parts as [|p [|q ps]]; done. Qed.

Lemma join_empty_first (parts : list string) :
  parts <> [] ->
  PyStr.join PyStr.name_sep (EmptyString :: parts)
  = String ";" (String " " (PyStr.join PyStr.name_sep parts)).
Proof. destruct parts as [|p ps]; done. Qed.

Lemma eqb_sep (a d : ascii) :
  Ascii.eqb a ";" && Ascii.eqb d " " = true -> a = ";"%char /\ d = " "%char.
Proof.
  intros [H1 H2]%andb_true_iff. by apply Ascii.eqb_eq in H1, H2.
Qed.

Lemma join_split_name (s : string) :
  PyStr.join PyStr.name_sep (PyStr.split_name s) = s /\
  forall a, PyStr.join PyStr.name_sep (PyStr.split_name (String a s)) = String a s.
Proof.
  induction s as [|d s [IH1 IH2]]; [done|]. split; [apply IH2|].
  intros a. rewrite split_name_cons.
  destruct (Ascii.eqb a ";" && Ascii.eqb d " ") eqn:E.
  - apply eqb_sep in E as [-> ->].
    rewrite join_empty_first by apply split_name_nonempty. by rewrite IH1.
  - rewrite join_cons_char by apply split_name_nonempty. by rewrite IH2.
Qed.

Lemma split_name_head (d : ascii) (s : string) :
  exists p ps,
    PyStr.split_name (String d s) = p :: ps /\
    (p = EmptyString \/ exists p', p = String d p').
Proof.
  rewrite split_name_cons. destruct s as [|e s].
  - exists (String d EmptyString), []. split; [done|]. right. by eexists.
  - destruct (_ && _).
    + eexists _, _. split; [done|]. by left.
    + destruct (PyStr.split_name (String e s)) as [|p ps] eqn:E;
        [by apply split_name_nonempty in E|].
      exists (String d p), ps. split; [done|]. right. by eexists.
Qed.

Lemma split_name_parts_free (s : string) :
  Forall sep_free (PyStr.split_name s) /\
  forall a, Forall sep_free (PyStr.split_name (String a s)).
Proof.
  unfold sep_free.
  induction s as [|d s [IH1 IH2]].
  - split; [by repeat constructor|]. intros a. rewrite split_name_cons.
    cbn [PyStr.split_name PyStr.cons_char]. constructor; [|constructor].
    cbn [PyStr.contains PyStr.startswith PyStr.name_sep].
    by destruct (Ascii.eqb _ _).
  - split; [apply IH2|]. intros a. rewrite split_name_cons.
    destruct (Ascii.eqb a ";" && Ascii.eqb d " ") eqn:E.
    + constructor; [done | apply IH1].
    + specialize (IH2 d).
      destruct (split_name_head d s) as (p & ps & Hsplit & Hp).
      rewrite Hsplit in *. apply Forall_cons in IH2 as [Hfree Hrest].
      cbn [PyStr.cons_char]. constructor; [|done].
      destruct Hp as [->|[p' ->]].
      * cbn [PyStr.contains PyStr.startswith PyStr.name_sep].
        by destruct (Ascii.eqb _ _).
      * cbn [PyStr.contains] in *. by rewrite startswith_sep, E, Hfree.
Qed.

(** X11. The split on ["; "] loses nothing: the parts joined again with
    the separator give the name back, and no part contains the
    separator. *)
Theorem X11_split_round_trip (s : string) :
  PyStr.join PyStr.name_sep (PyStr.split_name s) = s /\
  Forall (fun part => PyStr.contains PyStr.name_sep part = false)
    (PyStr.split_name s).
Proof.
  split; [apply join_split_name | apply split_name_parts_free].
Qed.

Lemma lstrip_suffix (s : string) : exists a, s = a +:+ PyStr.lstrip s.
Proof.
  induction s as [|c s [a IH]]; [by exists EmptyString|].
  cbn [PyStr.lstrip]. destruct (PyStr.is_space c).
  - exists (String c a). rewrite app_cons. by f_equal.
  - by exists EmptyString.
Qed.

Lemma rstrip_prefix (s : string) : exists b, s = PyStr.rstrip s +:+ b.
Proof.
  induction s as [|c s [b IH]]; [by exists EmptyString|].
  rewrite rstrip_cons. destruct (PyStr.rstrip s) as [|d r].
  - destruct (PyStr.is_space c).
    + by exists (String c s).
    + exists b. rewrite app_cons. by f_equal.
  - exists b. rewrite app_cons. by f_equal.
Qed.

Lemma strip_free (s : string) : sep_free s -> sep_free (PyStr.strip s).
Proof.
  unfold sep_free, PyStr.strip. intros Hs.
  destruct (PyStr.contains PyStr.name_sep (PyStr.rstrip (PyStr.lstrip s)))
    eqn:E; [|done].
  apply contains_spec in E as (pre & post & E).
  destruct (lstrip_suffix s) as [a Ha].
  destruct (rstrip_prefix (PyStr.lstrip s)) as [b Hb].
  assert (PyStr.contains PyStr.name_sep s = true) as Hc; [|congruence].
  apply contains_spec. exists (a +:+ pre), (post +:+ b).
  rewrite Ha at 1. rewrite Hb at 1. rewrite E.
  by rewrite !app_assoc.
Qed.

Lemma name_part_is_part (j : nat) (r : gmap string cell) (y : string) :
  name_part j r = Str y ->
  exists s, field "NAME" r = Str s /\ y ∈ PyStr.split_name s.
Proof.
  unfold name_part, expand_row, split_parts, pad_row.
  destruct (field "NAME" r) as [s| |].
  - intros H. exists s. split; [done|].
    destruct (((Str <$> PyStr.split_name s) ++ _) !! j) as [v|] eqn:E; [|done].
    simpl in H. subst v. apply lookup_app_Some in E as [E|[_ E]].
    + apply list_lookup_fmap_Some in E as (y' & [= ->] & E).
      by eapply list_elem_of_lookup_2.
    + by apply lookup_replicate in E as [? _].
  - intros H. destruct (replicate 3 NaN !! j) as [v|] eqn:E; [|done].
    apply lookup_replicate in E as [-> _]. done.
  - intros H. destruct (replicate 3 NaN !! j) as [v|] eqn:E; [|done].
    apply lookup_replicate in E as [-> _]. done.
Qed.

(** X12. After the name split, a county or state name that is present
    does not contain the separator ["; "]. *)
Theorem X12_names_hold_no_separator (df out : DataFrame) :
  preprocess_name_column df = Ok out ->
  Forall (fun r' =>
            forall k x,
              k = "County_Name" \/ k = "State_Name" ->
              r' !! k = Some (Str x) ->
              PyStr.contains PyStr.name_sep x = false)
    (records out).
Proof.
  intros H. apply preprocess_inv in H. subst out. cbn [records].
  apply Forall_fmap, Forall_true. intros r. unfold compose. cbv beta.
  destruct (name_record_spec r) as (Hcn & Hsn & _).
  assert (forall j x, strip_cell (name_part j r) = Str x ->
                      PyStr.contains PyStr.name_sep x = false) as Hfree.
  { intros j x Hx. destruct (name_part j r) as [y| |] eqn:Hy; try done.
    injection Hx as <-. apply name_part_is_part in Hy as (s & _ & Hin).
    apply strip_free.
    by apply (proj1 (Forall_forall _ _) (proj1 (split_name_parts_free s))). }
  intros k x [->| ->] Hx.
  - rewrite Hcn in Hx. apply (Hfree 1). congruence.
  - rewrite Hsn in Hx. apply (Hfree 2). congruence.
Qed.

Lemma X12_names_hold_no_separator_witness :
  exists out,
    preprocess_name_column abc_frame = Ok out /\
    Forall (fun r' =>
              forall x, r' !! "State_Name" = Some (Str x) ->
                        PyStr.contains PyStr.name_sep x = false)
      (records out).
Proof.
  destruct (preprocess_name_column abc_frame) as [out|e] eqn:H;
    [|vm_compute in H; discriminate].
  exists out. split; [done|].
  eapply Forall_impl; [exact (X12_names_hold_no_separator _ _ H)|].
  intros r' Hr x Hx. by apply (Hr "State_Name" x); [right|].
Defined.

End CensusMore.

(** ** The outer join: nothing lost, nothing invented *)

Module MergeMore.
Import Pandas Census PandasFacts CensusFacts.

Lemma key_eq_refl (a : cell) : key_eq a a = true.
Proof. destruct a; [simpl; by apply bool_decide_eq_true_2 | done..]. Qed.

Lemma same_key_true (on : list string) (l r : gmap string cell) :
  same_key on l r = true <->
  forall k, k ∈ on -> key_eq (field k l) (field k r) = true.
Proof.
  unfold same_key. rewrite forallb_forall. split.
  - intros H k Hk. apply H. by apply list_elem_of_In.
  - intros H k Hk. apply H. by apply list_elem_of_In.
Qed.

Section merge_more.
Context (on : list string) (left right out : DataFrame).
Hypothesis on_left : Forall (fun k => k ∈ columns left) on.
Hypothesis on_right : Forall (fun k => k ∈ columns right) on.
Hypothesis disjoint_rest :
  forall c, c ∈ columns left -> c ∈ columns right -> c ∈ on.
Hypothesis merged : merge_outer on left right = Ok out.

Lemma pair_kept (l r : gmap string cell) :
  l ∈ records left -> r ∈ records right -> same_key on l r = true ->
  exists m, m ∈ records out /\
    (forall c, c ∈ columns left -> m !! c = Some (field c l)) /\
    (forall c, c ∈ right_rest on right -> m !! c = Some (field c r)).
Proof using All.
  intros Hl Hr Hkey.
  rewrite (merge_outer_Ok on left right on_left on_right disjoint_rest) in merged.
  injection merged as <-.
  exists (left_part on left right l ∪ right_part on left right r).
  cbn [records]. split.
  - apply elem_of_app. left. apply list_elem_of_bind. exists l.
    split; [|done]. unfold join_left.
    assert (r ∈ filter (fun r => same_key on l r = true) (records right)) as Hin
      by (by apply (list_elem_of_filter (fun r => same_key on l r = true))).
    destruct (filter _ _) as [|x xs]; [by apply elem_of_nil in Hin|].
    apply list_elem_of_fmap. by exists r.
  - split.
    + intros c Hc. apply lookup_union_Some_l.
      by rewrite (left_part_eq on left right disjoint_rest),
        lookup_reindex, decide_True.
    + intros c Hc. rewrite lookup_union_r.
      * by rewrite (right_part_eq on left right disjoint_rest),
          lookup_reindex, decide_True.
      * rewrite (left_part_eq on left right disjoint_rest),
          lookup_reindex, decide_False; [done|].
        by apply (right_rest_not_left on left right disjoint_rest).
Qed.

(** X13. The outer join loses no row: every record of the left table is
    in the result with all its columns, and every record of the right
    table is in the result with its other columns and an equal key. *)
Theorem X13_outer_join_loses_no_row :
  (forall l, l ∈ records left ->
     exists m, m ∈ records out /\
       forall c, c ∈ columns left -> m !! c = Some (field c l)) /\
  (forall r, r ∈ records right ->
     exists m, m ∈ records out /\
       (forall c, c ∈ right_rest on right -> m !! c = Some (field c r)) /\
       (forall k, k ∈ on -> key_eq (field k m) (field k r) = true)).
Proof using All.
  split.
  - intros l Hl.
    destruct (decide (Forall (fun r => same_key on l r = false) (records right)))
      as [Hno|Hsome].
    + destruct (left_only_kept on left right on_left on_right disjoint_rest
                  out merged l Hl Hno) as (m & Hm & Hc & _).
      by exists m.
    + apply not_Forall_Exists in Hsome; [|apply _].
      apply Exists_exists in Hsome as (r & Hr & Hkey).
      apply not_false_is_true in Hkey.
      destruct (pair_kept l r Hl Hr Hkey) as (m & Hm & Hc & _). by exists m.
  - intros r Hr.
    destruct (decide (Forall (fun l => same_key on l r = false) (records left)))
      as [Hno|Hsome].
    + destruct (right_only_kept on left right on_left on_right disjoint_rest
                  out merged r Hr Hno) as (m & Hm & Hc & Hk & _).
      exists m. split; [done|]. split; [done|]. intros k Hin.
      rewrite (field_lookup _ _ _ (Hk k Hin)). apply key_eq_refl.
    + apply not_Forall_Exists in Hsome; [|apply _].
      apply Exists_exists in Hsome as (l & Hl & Hkey).
      apply not_false_is_true in Hkey.
      destruct (pair_kept l r Hl Hr Hkey) as (m & Hm & Hc & Hrest).
      exists m. split; [done|]. split; [done|]. intros k Hin.
      assert (k ∈ columns left) as Hkl
        by by apply (proj1 (Forall_forall _ _) on_left).
      rewrite (field_lookup _ _ _ (Hc k Hkl)).
      by apply (proj1 (same_key_true on l r) Hkey).
Qed.

(** X14. The outer join combines matching rows: for a left and a right
    record with equal keys the result has a record with all the columns
    of the left one and the other columns of the right one. *)
Theorem X14_outer_join_combines_matches (l r : gmap string cell) :
  l ∈ records left -> r ∈ records right ->
  (forall k, k ∈ on -> key_eq (field k l) (field k r) = true) ->
  exists m, m ∈ records out /\
    (forall c, c ∈ columns left -> m !! c = Some (field c l)) /\
    (forall c, c ∈ right_rest on right -> m !! c = Some (field c r)).
Proof using All.
  intros Hl Hr Hkey. apply pair_kept; [done..|]. by apply same_key_true.
Qed.

(** X15. The outer join invents no row: a record of the result has the
    columns of a left record, with the right table's other columns either
    missing or those of a right record with an equal key; or it has the
    key and the other columns of a right record that no left record
    matches, the left table's other columns being missing. *)
Theorem X15_outer_join_invents_no_row (m : gmap string cell) :
  m ∈ records out ->
  (exists l, l ∈ records left /\
     (forall c, c ∈ columns left -> m !! c = Some (field c l)) /\
     ((forall c, c ∈ right_rest on right -> m !! c = Some NaN) \/
      exists r, r ∈ records right /\ same_key on l r = true /\
        forall c, c ∈ right_rest on right -> m !! c = Some (field c r))) \/
  (exists r, r ∈ records right /\
     Forall (fun l => same_key on l r = false) (records left) /\
     (forall k, k ∈ on -> m !! k = Some (field k r)) /\
     (forall c, c ∈ right_rest on right -> m !! c = Some (field c r)) /\
     (forall c, c ∈ columns left -> c ∉ on -> m !! c = Some NaN)).
Proof using All.
  intros Hm.
  rewrite (merge_outer_Ok on left right on_left on_right disjoint_rest) in merged.
  injection merged as <-. cbn [records] in Hm.
  assert (forall l c, c ∈ columns left ->
            left_part on left right l !! c = Some (field c l)) as Lin
    by (intros l c Hc; by rewrite (left_part_eq on left right disjoint_rest),
                            lookup_reindex, decide_True).
  assert (forall l c, c ∈ right_rest on right ->
            left_part on left right l !! c = None) as Lout.
  { intros l c Hc. rewrite (left_part_eq on left right disjoint_rest),
      lookup_reindex, decide_False; [done|].
    by apply (right_rest_not_left on left right disjoint_rest). }
  apply elem_of_app in Hm as [Hm|Hm].
  - left. apply list_elem_of_bind in Hm as (l & Hm & Hl). exists l.
    split; [done|]. unfold join_left in Hm.
    destruct (filter _ _) as [|x xs] eqn:Hf.
    + apply list_elem_of_singleton in Hm as ->. split.
      * intros c Hc. apply lookup_union_Some_l. auto.
      * left. intros c Hc. rewrite lookup_union_r by auto.
        by rewrite (right_missing_lookup on left right disjoint_rest),
          decide_True.
    + apply list_elem_of_fmap in Hm as (r & -> & Hr). rewrite <- Hf in Hr.
      apply (list_elem_of_filter (fun r => same_key on l r = true)) in Hr
        as [Hkey Hr].
      split.
      * intros c Hc. apply lookup_union_Some_l. auto.
      * right. exists r. split; [done|]. split; [done|].
        intros c Hc. rewrite lookup_union_r by auto.
        by rewrite (right_part_eq on left right disjoint_rest),
          lookup_reindex, decide_True.
  - right. apply list_elem_of_fmap in Hm as (r & -> & Hr). exists r.
    unfold unmatched_right in Hr.
    apply (list_elem_of_filter
             (fun r => Forall (fun l => same_key on l r = false)
                         (records left))) in Hr as [Hno Hr].
    split; [done|]. split; [done|].
    assert (forall c, c ∈ right_rest on right ->
              left_of_right on left right r !! c = None) as Rout.
    { intros c Hc.
      rewrite (left_of_right_lookup on left right disjoint_rest),
        decide_False; [done|].
      by apply (right_rest_not_left on left right disjoint_rest). }
    split; [|split].
    + intros k Hk. apply lookup_union_Some_l.
      rewrite (left_of_right_lookup on left right disjoint_rest), decide_True.
      * by rewrite bool_decide_eq_true_2.
      * by apply (proj1 (Forall_forall _ _) on_left).
    + intros c Hc. rewrite lookup_union_r by auto.
      by rewrite (right_part_eq on left right disjoint_rest),
        lookup_reindex, decide_True.
    + intros c Hc Hn. apply lookup_union_Some_l.
      rewrite (left_of_right_lookup on left right disjoint_rest),
        decide_True by done.
      by rewrite bool_decide_eq_false_2.
Qed.
End merge_more.

Lemma shared_columns_are_keys (A B K : list string) :
  Forall (fun c => c ∈ B -> c ∈ K) A ->
  forall c, c ∈ A -> c ∈ B -> c ∈ K.
Proof. intros H c Hc. by apply (proj1 (Forall_forall _ _) H). Qed.

Lemma X13_outer_join_loses_no_row_witness :
  exists out m,
    merge_outer merge_keys dp_only dhc_only = Ok out /\
    m ∈ records out /\
    m !! "white_population" = Some (Str "523").
Proof.
  destruct (merge_outer merge_keys dp_only dhc_only) as [out|e] eqn:M;
    [|vm_compute in M; discriminate].
  destruct (proj1 (X13_outer_join_loses_no_row merge_keys dp_only dhc_only out
                     ltac:(decide_vm) ltac:(decide_vm)
                     (shared_columns_are_keys (columns dp_only) (columns dhc_only)
                        merge_keys ltac:(decide_vm)) M)
              (list_to_map
                 (zip (DESIRED_COLUMNS ++ ["white_population"])
                    [Str "06001000100"; Str "06"; Str "State Y"; Str "001";
                     Str "County X"; Str "000100"; Str "523"])))
    as (m & Hm & Hc).
  - apply list_elem_of_singleton. reflexivity.
  - exists out, m. split; [done|]. split; [done|].
    rewrite Hc; [by vm_compute | decide_vm].
Defined.

Lemma X14_outer_join_combines_matches_witness :
  exists out m,
    merge_outer merge_keys dp_only dhc_same = Ok out /\
    m ∈ records out /\
    m !! "white_population" = Some (Str "523") /\
    m !! "owner_occupied_asian" = Some (Str "12").
Proof.
  destruct (merge_outer merge_keys dp_only dhc_same) as [out|e] eqn:M;
    [|vm_compute in M; discriminate].
  destruct (X14_outer_join_combines_matches merge_keys dp_only dhc_same out
              ltac:(decide_vm) ltac:(decide_vm)
              (shared_columns_are_keys (columns dp_only) (columns dhc_same)
                 merge_keys ltac:(decide_vm)) M
              (list_to_map
                 (zip (DESIRED_COLUMNS ++ ["white_population"])
                    [Str "06001000100"; Str "06"; Str "State Y"; Str "001";
                     Str "County X"; Str "000100"; Str "523"]))
              (list_to_map
                 (zip (DESIRED_COLUMNS ++ ["owner_occupied_asian"])
                    [Str "06001000100"; Str "06"; Str "State Y"; Str "001";
                     Str "County X"; Str "000100"; Str "12"])))
    as (m & Hm & Hl & Hr).
  - apply list_elem_of_singleton. reflexivity.
  - apply list_elem_of_singleton. reflexivity.
  - apply same_key_true. by vm_compute.
  - exists out, m. split; [done|]. split; [done|]. split.
    + rewrite Hl; [by vm_compute | decide_vm].
    + rewrite Hr; [by vm_compute | decide_vm].
Defined.

Lemma X15_outer_join_invents_no_row_witness :
  exists out,
    merge_outer merge_keys dp_only dhc_only = Ok out /\
    Forall (fun m =>
              (exists l, l ∈ records dp_only /\
                 m !! "geo_id" = Some (field "geo_id" l)) \/
              (exists r, r ∈ records dhc_only /\
                 m !! "geo_id" = Some (field "geo_id" r)))
      (records out).
Proof.
  destruct (merge_outer merge_keys dp_only dhc_only) as [out|e] eqn:M;
    [|vm_compute in M; discriminate].
  exists out. split; [done|]. apply Forall_forall. intros m Hm.
  destruct (X15_outer_join_invents_no_row merge_keys dp_only dhc_only out
              ltac:(decide_vm) ltac:(decide_vm)
              (shared_columns_are_keys (columns dp_only) (columns dhc_only)
                 merge_keys ltac:(decide_vm)) M m Hm)
    as [(l & Hl & Hc & _)|(r & Hr & _ & Hk & _)].
  - left. exists l. split; [done|]. apply Hc. decide_vm.
  - right. exists r. split; [done|]. apply Hk. decide_vm.
Defined.

End MergeMore.

(** ** [sql_database.py]: what a run does to the tables *)

Module LoaderMore.
Import Sqlite Loader PyStrFacts LoaderFacts.

Lemma grows_refl (db : gmap string table) : grows db db.
Proof. intros name t H. by exists t. Qed.

Lemma grows_trans (db1 db2 db3 : gmap string table) :
  grows db1 db2 -> grows db2 db3 -> grows db1 db3.
Proof.
  intros H12 H23 name t H.
  destruct (H12 name t H) as (t2 & H2 & C2 & R2).
  destruct (H23 name t2 H2) as (t3 & H3 & C3 & R3).
  exists t3. split; [done|]. split; [congruence | auto].
Qed.

Section run_facts.
Variable accepts : string -> bool.
Variable rowid_of_text : string -> option Z.

(** A successful insert: what was there, and what is there now. *)
Lemma execute_insert_Ok (name : string) (row : list string)
    (db db' : gmap string table) :
  execute_insert rowid_of_text name row db = Ok db' ->
  exists t v rest k,
    db !! fold_name name = Some t /\ row = v :: rest /\
    length row = length (tbl_columns t) /\
    rowid_of_text v = Some k /\ tbl_rows t !! k = None /\
    db' = <[fold_name name := mkTable (tbl_columns t)
                                 (<[k := rest]> (tbl_rows t))]> db.
Proof.
  unfold execute_insert. intros H.
  destruct (db !! fold_name name) as [t|] eqn:Hdb; [|done].
  destruct (decide _) as [Hlen|]; [|done].
  destruct row as [|v rest]; [done|].
  destruct (rowid_of_text v) as [k|] eqn:Hk; [|done].
  destruct (tbl_rows t !! k) eqn:Hold; [done|].
  injection H as <-. by exists t, v, rest, k.
Qed.

Lemma execute_insert_grows (name : string) (row : list string)
    (db db' : gmap string table) :
  execute_insert rowid_of_text name row db = Ok db' -> grows db db'.
Proof.
  intros H. apply execute_insert_Ok in H
    as (t & v & rest & k & Hdb & _ & _ & _ & Hnone & ->).
  intros name' t' Ht'. destruct (decide (fold_name name = name')) as [<-|Hne].
  - rewrite lookup_insert_eq. eexists. split; [done|].
    assert (t' = t) as -> by congruence. split; [done|].
    intros k' v' Hk'. cbn [tbl_rows]. rewrite lookup_insert_ne; [done|].
    intros ->. congruence.
  - rewrite lookup_insert_ne by done. by exists t'.
Qed.

Lemma execute_create_grows (sql name : string) (cols : list string)
    (db db' : gmap string table) :
  execute_create accepts sql name cols db = Ok db' ->
  grows db db' /\ is_Some (db' !! fold_name name).
Proof.
  unfold execute_create. destruct (accepts sql); [|done].
  destruct (db !! fold_name name) as [t|] eqn:Hdb.
  - intros [= <-]. split; [apply grows_refl | by rewrite Hdb].
  - intros [= <-]. split; [|by rewrite lookup_insert_eq].
    intros name' t' Ht'. exists t'.
    rewrite lookup_insert_ne by (intros <-; congruence). done.
Qed.

Lemma insert_rows_grows (name : string) (rows : list (list string))
    (db db' : gmap string table) :
  insert_rows rowid_of_text name rows db = Ok db' -> grows db db'.
Proof.
  revert db. induction rows as [|row rows IH]; intros db.
  - intros [= <-]. apply grows_refl.
  - cbn [insert_rows].
    destruct (execute_insert rowid_of_text name row db) as [db1|e] eqn:E.
    + intros H. eapply grows_trans; [by eapply execute_insert_grows | by apply IH].
    + destruct e; try done. apply IH.
Qed.

Lemma load_file_grows (f : csv_file) (st st' : state) :
  load_file accepts rowid_of_text f st = Ok st' -> grows (conn st) (conn st').
Proof.
  destruct f as [file contents]. unfold load_file.
  destruct (PyStr.endswith ".csv" file); [|intros [= <-]; apply grows_refl].
  destruct contents as [|headers rows]; [done|].
  destruct (find_primary_key headers) as [pk|];
    [|intros [= <-]; apply grows_refl].
  destruct (execute_create _ _ _ _ _) as [db1|] eqn:Hc; [|done].
  cbn [mbind result_bind].
  destruct (insert_rows _ _ _ _) as [db2|] eqn:Hr; [|done].
  intros [= <-]. cbn [conn].
  eapply grows_trans; [by eapply execute_create_grows | by eapply insert_rows_grows].
Qed.

Lemma load_files_grows (files : list csv_file) (st st' : state) :
  load_files accepts rowid_of_text files st = Ok st' ->
  grows (conn st) (conn st').
Proof.
  revert st. induction files as [|f files IH]; intros st.
  - intros [= <-]. apply grows_refl.
  - cbn [load_files].
    destruct (load_file accepts rowid_of_text f st) as [st1|] eqn:E; [|done].
    cbn [mbind result_bind]. intros H.
    eapply grows_trans; [by eapply load_file_grows | by apply IH].
Qed.

Lemma run_Ok (walk : list (string * list csv_file)) (db : gmap string table)
    (st : state) :
  insert_tables_to_database accepts rowid_of_text walk db = Ok st ->
  exists st0,
    load_files accepts rowid_of_text (walk ≫= snd) (mkState db []) = Ok st0 /\
    st = mkState (conn st0) (stdout st0 ++ [done_message]).
Proof.
  unfold insert_tables_to_database.
  destruct (load_files _ _ _ _) as [st0|]; [|done].
  intros [= <-]. by exists st0.
Qed.

(** X16. A run that completes only adds: every table that was in the
    database is still there with the same columns, and every row it had
    is still there with the same values. *)
Theorem X16_a_run_only_adds (walk : list (string * list csv_file))
    (db : gmap string table) (st : state) :
  insert_tables_to_database accepts rowid_of_text walk db = Ok st ->
  forall name t,
    db !! name = Some t ->
    exists t', conn st !! name = Some t' /\
      tbl_columns t' = tbl_columns t /\
      forall k v, tbl_rows t !! k = Some v -> tbl_rows t' !! k = Some v.
Proof.
  intros H. apply run_Ok in H as (st0 & H & ->).
  apply load_files_grows in H. exact H.
Qed.
End run_facts.

Lemma X16_a_run_only_adds_witness :
  exists st t',
    insert_tables_to_database accept_all decimal_rowid
      [("out", [("t.csv", [["geo_id"; "x"]; ["1"; "v"]; ["2"; "z"]])])]
      one_row_t = Ok st /\
    conn st !! "t" = Some t' /\
    tbl_rows t' !! 1%Z = Some ["u"].
Proof.
  destruct (insert_tables_to_database accept_all decimal_rowid
              [("out", [("t.csv", [["geo_id"; "x"]; ["1"; "v"]; ["2"; "z"]])])]
              one_row_t) as [st|e] eqn:H; [|vm_compute in H; discriminate].
  destruct (X16_a_run_only_adds _ _ _ _ _ H "t"
              (mkTable ["geo_id"; "x"] {[ 1%Z := ["u"] ]}) eq_refl)
    as (t' & Ht' & _ & Hrows).
  exists st, t'. split; [done|]. split; [done|]. by apply Hrows.
Defined.

Section rerun_facts.
Variable accepts : string -> bool.
Variable rowid_of_text : string -> option Z.

(** The lines printed while the files are read. *)
Lemma load_files_stdout (files : list csv_file) (st st' : state) :
  load_files accepts rowid_of_text files st = Ok st' ->
  stdout st' = stdout st ++ (skip_message ∘ fst <$> filter is_skipped files).
Proof.
  revert st. induction files as [|f files IH]; intros st.
  - intros [= <-]. by rewrite app_nil_r.
  - cbn [load_files].
    destruct (load_file accepts rowid_of_text f st) as [st1|] eqn:E; [|done].
    cbn [mbind result_bind]. intros H. apply IH in H. rewrite H. clear H IH.
    destruct f as [file contents]. unfold load_file in E.
    destruct (PyStr.endswith ".csv" file) eqn:Hcsv.
    + destruct contents as [|headers rows]; [done|].
      destruct (find_primary_key headers) as [pk|] eqn:Hpk.
      * rewrite filter_cons_False
          by (unfold is_skipped, is_csv; cbn [fst snd]; rewrite Hcsv, Hpk; simpl; tauto).
        destruct (execute_create _ _ _ _ _) as [db1|]; [|done].
        cbn [mbind result_bind] in E.
        destruct (insert_rows _ _ _ _) as [db2|]; [|done].
        by injection E as <-.
      * rewrite filter_cons_True
          by (unfold is_skipped, is_csv; cbn [fst snd]; rewrite Hcsv, Hpk; simpl; tauto).
        injection E as <-. cbn [stdout fmap list_fmap compose fst].
        by rewrite <- List.app_assoc.
    + rewrite filter_cons_False
        by (unfold is_skipped, is_csv; cbn [fst snd]; rewrite Hcsv; simpl; tauto).
      by injection E as <-.
Qed.

(** X17. A run that completes prints one line for every [.csv] file that
    has a header row without a [geo_id] column, in the order of the walk,
    and then the closing line; it prints nothing else. *)
Theorem X17_lines_printed (walk : list (string * list csv_file))
    (db : gmap string table) (st : state) :
  insert_tables_to_database accepts rowid_of_text walk db = Ok st ->
  stdout st
  = (skip_message ∘ fst <$> filter is_skipped (walk ≫= snd)) ++ [done_message].
Proof.
  intros H. apply (run_Ok accepts rowid_of_text) in H as (st0 & H & ->).
  apply load_files_stdout in H. cbn [stdout] in *. by rewrite H.
Qed.





End rerun_facts.

Lemma X17_lines_printed_witness :
  exists st,
    insert_tables_to_database accept_all decimal_rowid
      [("out", [("a.csv", [["geo_id"; "x"]; ["1"; "u"]]);
                ("b.csv", [["x"; "y"]; ["1"; "2"]]);
                ("notes.txt", [])])] ∅ = Ok st /\
    stdout st
    = ["Skipping file b.csv as 'geo_id' column not found";
       "Database created successfully and Tables added"].
Proof.
  destruct (insert_tables_to_database accept_all decimal_rowid
              [("out", [("a.csv", [["geo_id"; "x"]; ["1"; "u"]]);
                        ("b.csv", [["x"; "y"]; ["1"; "2"]]);
                        ("notes.txt", [])])] ∅) as [st|e] eqn:H;
    [|vm_compute in H; discriminate].
  exists st. split; [done|].
  by rewrite (X17_lines_printed _ _ _ _ _ H).
Defined.


Section row_facts.
Variable accepts : string -> bool.
Variable rowid_of_text : string -> option Z.

(** X19. When the row loop completes, the key of every row whose first
    value is an integer is in the table. *)
Theorem X19_every_key_is_stored (name : string) (rows : list (list string))
    (db db' : gmap string table) :
  insert_rows rowid_of_text name rows db = Ok db' ->
  forall v rest k,
    (v :: rest) ∈ rows -> rowid_of_text v = Some k ->
    exists t', db' !! fold_name name = Some t' /\ is_Some (tbl_rows t' !! k).
Proof.
  revert db. induction rows as [|row rows IH]; intros db H v rest k Hin Hk.
  { by apply elem_of_nil in Hin. }
  cbn [insert_rows] in H.
  assert (forall db1, insert_rows rowid_of_text name rows db1 = Ok db' ->
            forall t1 x, db1 !! fold_name name = Some t1 ->
                       tbl_rows t1 !! k = Some x ->
            exists t', db' !! fold_name name = Some t' /\
                       is_Some (tbl_rows t' !! k)) as Hkeep.
  { intros db1 H1 t1 x Ht1 Hx.
    destruct (insert_rows_grows _ _ _ _ _ H1 _ _ Ht1) as (t' & Ht' & _ & Hr).
    exists t'. split; [done|]. exists x. auto. }
  apply elem_of_cons in Hin as [<-|Hin].
  - destruct (execute_insert rowid_of_text name (v :: rest) db) as [db1|e] eqn:E.
    + apply execute_insert_Ok in E
        as (t & v' & rest' & k' & Hdb & [= <- <-] & _ & Hk' & _ & ->).
      assert (k' = k) as -> by congruence.
      eapply (Hkeep _ H); [apply lookup_insert_eq|].
      cbn [tbl_rows]. apply lookup_insert_eq.
    + destruct (execute_insert_raise_inv _ _ _ _ _ E) as [[-> Hi]|[-> _]]; [|done].
      destruct Hi as [(t & v' & rest' & k' & old & Hdb & [= <- <-] & _ & Hk' & Hold)
                     |(t & v' & rest' & _ & [= <- <-] & _ & Hnone)];
        [|congruence].
      assert (k' = k) as -> by congruence. by eapply (Hkeep _ H).
  - destruct (execute_insert rowid_of_text name row db) as [db1|e] eqn:E.
    + by eapply IH.
    + destruct e; try done. by eapply IH.
Qed.

(** X20. Of several rows with the same key the first one wins: when the
    loop completes and the key of its first row was not in the table, the
    table holds that row's values under the key, whatever rows follow. *)
Theorem X20_first_row_wins (name : string) (v : string) (rest : list string)
    (rows : list (list string)) (t : table) (k : Z)
    (db db' : gmap string table) :
  insert_rows rowid_of_text name ((v :: rest) :: rows) db = Ok db' ->
  db !! fold_name name = Some t ->
  rowid_of_text v = Some k ->
  tbl_rows t !! k = None ->
  exists t', db' !! fold_name name = Some t' /\ tbl_rows t' !! k = Some rest.
Proof.
  intros H Hdb Hk Hnone. cbn [insert_rows] in H.
  destruct (execute_insert rowid_of_text name (v :: rest) db) as [db1|e] eqn:E.
  - apply execute_insert_Ok in E
      as (t0 & v' & rest' & k' & Hdb' & [= <- <-] & _ & Hk' & _ & ->).
    assert (k' = k) as -> by congruence.
    destruct (insert_rows_grows _ _ _ _ _ H _ _ (lookup_insert_eq _ _ _))
      as (t' & Ht' & _ & Hr).
    exists t'. split; [done|]. apply Hr. cbn [tbl_rows]. apply lookup_insert_eq.
  - destruct (execute_insert_raise_inv _ _ _ _ _ E) as [[-> Hi]|[-> _]]; [|done].
    destruct Hi as [(t0 & v' & rest' & k' & old & Hdb' & [= <- <-] & _ & Hk' & Hold)
                   |(t0 & v' & rest' & _ & [= <- <-] & _ & Hno)];
      congruence.
Qed.
End row_facts.

Lemma X19_every_key_is_stored_witness :
  exists db' t',
    insert_rows decimal_rowid "t" [["1"; "v"]; ["abc"; "w"]; ["2"; "z"]] one_row_t
    = Ok db' /\
    db' !! "t" = Some t' /\ is_Some (tbl_rows t' !! 2%Z).
Proof.
  destruct (insert_rows decimal_rowid "t"
              [["1"; "v"]; ["abc"; "w"]; ["2"; "z"]] one_row_t)
    as [db'|e] eqn:H; [|vm_compute in H; discriminate].
  destruct (X19_every_key_is_stored _ _ _ _ _ H "2" ["z"] 2%Z) as (t' & Ht' & Hk).
  - rewrite !elem_of_cons. tauto.
  - reflexivity.
  - by exists db', t'.
Defined.

Lemma X20_first_row_wins_witness :
  exists db' t',
    insert_rows decimal_rowid "t" [["7"; "first"]; ["7"; "second"]] empty_t
    = Ok db' /\
    db' !! "t" = Some t' /\ tbl_rows t' !! 7%Z = Some ["first"].
Proof.
  destruct (insert_rows decimal_rowid "t"
              [["7"; "first"]; ["7"; "second"]] empty_t)
    as [db'|e] eqn:H; [|vm_compute in H; discriminate].
  destruct (X20_first_row_wins decimal_rowid "t" "7" ["first"] [["7"; "second"]]
              (mkTable ["geo_id"; "x"] ∅) 7%Z empty_t db' H)
    as (t' & Ht' & Hk); [done..|].
  by exists db', t'.
Defined.

Section file_facts.
Variable accepts : string -> bool.
Variable rowid_of_text : string -> option Z.

Lemma load_files_app (before after : list csv_file) (st : state) :
  load_files accepts rowid_of_text (before ++ after) st
  = load_files accepts rowid_of_text before st
    ≫= load_files accepts rowid_of_text after.
Proof.
  revert st. induction before as [|f before IH]; intros st; [done|].
  cbn [app load_files].
  destruct (load_file accepts rowid_of_text f st) as [st1|e]; [|done].
  cbn [mbind result_bind]. apply IH.
Qed.

(** X21. A [.csv] file without any line aborts the run with
    [StopIteration], once the files before it have been loaded. *)
Theorem X21_empty_csv_aborts (walk : list (string * list csv_file))
    (file : string) (before after : list csv_file)
    (db : gmap string table) (st : state) :
  walk ≫= snd = before ++ (file, []) :: after ->
  PyStr.endswith ".csv" file = true ->
  load_files accepts rowid_of_text before (mkState db []) = Ok st ->
  insert_tables_to_database accepts rowid_of_text walk db = Raise StopIteration.
Proof.
  intros Hwalk Hcsv Hbefore. unfold insert_tables_to_database.
  rewrite Hwalk, load_files_app, Hbefore. cbn [mbind result_bind load_files].
  unfold load_file. by rewrite Hcsv.
Qed.

Lemma load_files_filter (files : list csv_file) (st : state) :
  load_files accepts rowid_of_text (filter is_csv files) st
  = load_files accepts rowid_of_text files st.
Proof.
  revert st. induction files as [|[file contents] files IH]; intros st; [done|].
  destruct (PyStr.endswith ".csv" file) eqn:Hcsv.
  - rewrite filter_cons_True by (unfold is_csv; cbn [fst]; rewrite Hcsv; exact I).
    cbn [load_files].
    destruct (load_file _ _ _ _) as [st1|e]; [|done]. apply IH.
  - rewrite filter_cons_False
      by (unfold is_csv; cbn [fst]; rewrite Hcsv; simpl; tauto).
    cbn [load_files]. unfold load_file. rewrite Hcsv. cbn [mbind result_bind].
    apply IH.
Qed.

(** X22. Only the [.csv] files count, in the order of the walk: a run
    does what it would do on one directory holding just these files. *)
Theorem X22_only_csv_files_count (walk : list (string * list csv_file))
    (db : gmap string table) :
  insert_tables_to_database accepts rowid_of_text walk db
  = insert_tables_to_database accepts rowid_of_text
      [(EmptyString, filter is_csv (walk ≫= snd))] db.
Proof.
  unfold insert_tables_to_database.
  change ([(EmptyString, filter is_csv (walk ≫= snd))] ≫= snd)
    with (filter is_csv (walk ≫= snd) ++ []).
  by rewrite app_nil_r, load_files_filter.
Qed.
End file_facts.

Lemma X21_empty_csv_aborts_witness :
  insert_tables_to_database accept_all decimal_rowid
    [("out", [("a.csv", [["geo_id"; "x"]; ["1"; "u"]]); ("empty.csv", [])])] ∅
  = Raise StopIteration.
Proof.
  eapply (X21_empty_csv_aborts accept_all decimal_rowid _ "empty.csv"
            [("a.csv", [["geo_id"; "x"]; ["1"; "u"]])] []);
    by vm_compute.
Defined.

(** *** The statement and the columns it declares *)

(** X23. In the generated statement the table name and the primary key
    are written as they are, and every other header is written between
    double quotes, whatever its name; when no header differs from the key
    the column list ends right after the comma. *)
Theorem X23_statement_shape (table_name : string) (headers : list string)
    (pk : string) :
  table_creation_sql table_name headers pk
  = "CREATE TABLE IF NOT EXISTS " +:+ table_name +:+ " (" +:+ pk
    +:+ " INTEGER PRIMARY KEY, "
    +:+ PyStr.join " ,"
          ((fun column => dquote +:+ column +:+ dquote)
             <$> filter (fun column => column <> pk) headers)
    +:+ ")" /\
  (Forall (fun column => column = pk) headers ->
   table_creation_sql table_name headers pk
   = "CREATE TABLE IF NOT EXISTS " +:+ table_name +:+ " (" +:+ pk
     +:+ " INTEGER PRIMARY KEY, )").
Proof.
  unfold table_creation_sql. rewrite remaining_columns_all_quoted.
  split; [done|]. intros Hall.
  assert (filter (fun column => column <> pk) headers = []) as ->; [|done].
  induction Hall as [|h headers -> Hall IH]; [done|].
  by rewrite filter_cons_False by (by intros ?).
Qed.

Lemma X23_statement_shape_witness :
  table_creation_sql "t" ["geo_id"] "geo_id"
  = "CREATE TABLE IF NOT EXISTS t (geo_id INTEGER PRIMARY KEY, )".
Proof.
  apply (X23_statement_shape "t" ["geo_id"] "geo_id"). by repeat constructor.
Defined.

Lemma filter_all {A : Type} (P : A -> Prop) `{!forall x, Decision (P x)}
    (l : list A) :
  Forall P l -> filter P l = l.
Proof.
  induction 1 as [|x l Hx Hl IH]; [done|].
  rewrite filter_cons_True by done. by rewrite IH.
Qed.

Lemma find_primary_key_elem (headers : list string) (pk : string) :
  find_primary_key headers = Some pk -> pk ∈ headers.
Proof.
  intros (before & after & -> & _)%find_primary_key_Some.
  apply elem_of_app. right. left.
Qed.



End LoaderMore.

(** ** From the merged table to the loader *)

Module PipelineFacts.
Import Pandas Census PandasFacts CensusFacts CensusMore.
Import Sqlite Loader LoaderFacts LoaderMore.

Lemma cleaned_columns (dictionary : gmap string string)
    (dataframes : list (string * DataFrame)) (out : DataFrame) :
  clean_frames dictionary dataframes = Ok out ->
  exists rest,
    columns out = merge_keys ++ rest /\
    Forall (fun c => c ∉ merge_keys) rest.
Proof.
  intros H. apply clean_frames_inv in H. cbv zeta in H. subst out.
  eexists. split; [reflexivity|].
  apply Forall_forall. intros c Hc.
  by apply (list_elem_of_filter (fun col => col ∉ DESIRED_COLUMNS)) in Hc as [? _].
Qed.

(** X25. The header of the merged table suits the loader: when the three
    cleaned tables share no column but the six identifiers, the merge
    returns a table whose columns are the six identifiers followed by
    columns none of which is an identifier; the loader's primary key for
    it is [geo_id], its first column; and the table the loader declares
    has exactly the columns of the header, in the order of the header. *)
Theorem X25_merged_header_suits_the_loader
    (d1 d2 d3 : gmap string string)
    (f1 f2 f3 : list (string * DataFrame)) (dp dhc cre : DataFrame) :
  clean_frames d1 f1 = Ok dp ->
  clean_frames d2 f2 = Ok dhc ->
  clean_frames d3 f3 = Ok cre ->
  (forall c, c ∈ columns dp -> c ∈ columns dhc -> c ∈ merge_keys) ->
  (forall c, c ∈ columns dp -> c ∈ columns cre -> c ∈ merge_keys) ->
  (forall c, c ∈ columns dhc -> c ∈ columns cre -> c ∈ merge_keys) ->
  exists merged rest,
    merge_census dp dhc cre = Ok merged /\
    columns merged = merge_keys ++ rest /\
    Forall (fun c => c ∉ merge_keys) rest /\
    find_primary_key (columns merged) = Some "geo_id" /\
    table_columns (columns merged) "geo_id" = columns merged.
Proof.
  intros H1 H2 H3 D1 D2 D3.
  destruct (cleaned_columns _ _ _ H1) as (r1 & C1 & F1).
  destruct (cleaned_columns _ _ _ H2) as (r2 & C2 & F2).
  destruct (cleaned_columns _ _ _ H3) as (r3 & C3 & F3).
  assert (forall df r, columns df = merge_keys ++ r ->
            Forall (fun k => k ∈ columns df) merge_keys) as Hkeys.
  { intros df r ->. apply Forall_forall. intros k Hk. apply elem_of_app. by left. }
  pose proof (Hkeys _ _ C1) as Kdp. pose proof (Hkeys _ _ C2) as Kdhc.
  pose proof (Hkeys _ _ C3) as Kcre.
  unfold merge_census.
  rewrite (merge_outer_Ok merge_keys dp dhc Kdp Kdhc D1), data_bind_Ok.
  set (first := mkFrame _ _).
  assert (Forall (fun k => k ∈ columns first) merge_keys) as Kfirst.
  { eapply Forall_impl; [exact Kdp|]. intros k Hk. apply elem_of_app. by left. }
  assert (forall c, c ∈ columns first -> c ∈ columns cre -> c ∈ merge_keys)
    as D4.
  { intros c Hc. apply elem_of_app in Hc as [Hc|Hc]; [auto|].
    apply elem_of_right_rest in Hc as [_ Hc]. auto. }
  rewrite (merge_outer_Ok merge_keys first cre Kfirst Kcre D4).
  eexists _, (r1 ++ right_rest merge_keys dhc ++ right_rest merge_keys cre).
  split; [reflexivity|]. cbn [columns first].
  assert (Forall (fun c => c ∉ merge_keys)
            (r1 ++ right_rest merge_keys dhc ++ right_rest merge_keys cre))
    as Hrest.
  { rewrite !Forall_app. split; [done|].
    split; apply Forall_forall; intros c Hc;
      by apply elem_of_right_rest in Hc as [? _]. }
  assert ((columns dp ++ right_rest merge_keys dhc) ++ right_rest merge_keys cre
          = merge_keys
            ++ r1 ++ right_rest merge_keys dhc ++ right_rest merge_keys cre)
    as -> by (rewrite C1; by rewrite <- !List.app_assoc).
  split; [done|]. split; [done|]. split; [reflexivity|].
  unfold table_columns, merge_keys. cbn [app]. f_equal.
  rewrite filter_cons_False by (by intros ?). rewrite filter_all; [done|].
  repeat (constructor; [done|]).
  eapply Forall_impl; [exact Hrest|]. intros c Hc ->. apply Hc. left.
Qed.

Lemma X25_merged_header_suits_the_loader_witness :
  exists merged,
    table_columns (columns merged) "geo_id" = columns merged /\
    "white_population" ∈ columns merged.
Proof.
  destruct (clean_frames dp_dictionary
              [("California",
                mkFrame ["NAME"; "state"; "county"; "tract"; "DP1_0078C"]
                  [list_to_map
                     (zip ["NAME"; "state"; "county"; "tract"; "DP1_0078C"]
                        [Str "Tract 1; County X; State Y"; Str "06"; Str "001";
                         Str "000100"; Str "523"])])])
    as [dp|e] eqn:H1; [|vm_compute in H1; discriminate].
  destruct (clean_frames dhc_variable_dictionary
              [("California",
                mkFrame ["NAME"; "state"; "county"; "tract"; "H12D_002N"]
                  [list_to_map
                     (zip ["NAME"; "state"; "county"; "tract"; "H12D_002N"]
                        [Str "Tract 1; County X; State Y"; Str "06"; Str "001";
                         Str "000100"; Str "12"])])])
    as [dhc|e] eqn:H2; [|vm_compute in H2; discriminate].
  destruct (clean_frames cre_dictionary
              [("California",
                mkFrame ["NAME"; "state"; "county"; "tract"; "PRED0_E"]
                  [list_to_map
                     (zip ["NAME"; "state"; "county"; "tract"; "PRED0_E"]
                        [Str "Tract 1; County X; State Y"; Str "06"; Str "001";
                         Str "000100"; Str "7"])])])
    as [cre|e] eqn:H3; [|vm_compute in H3; discriminate].
  destruct (X25_merged_header_suits_the_loader _ _ _ _ _ _ _ _ _ H1 H2 H3)
    as (merged & rest & Hm & Hcols & _ & _ & Htable).
  - vm_compute in H1, H2. injection H1 as <-. injection H2 as <-.
    apply MergeMore.shared_columns_are_keys. decide_vm.
  - vm_compute in H1, H3. injection H1 as <-. injection H3 as <-.
    apply MergeMore.shared_columns_are_keys. decide_vm.
  - vm_compute in H2, H3. injection H2 as <-. injection H3 as <-.
    apply MergeMore.shared_columns_are_keys. decide_vm.
  - exists merged. split; [exact Htable|].
    vm_compute in H1, H2, H3. injection H1 as <-. injection H2 as <-.
    injection H3 as <-. vm_compute in Hm. injection Hm as <-. decide_vm.
Defined.

End PipelineFacts.

(** ** The table name of a file *)

Module TableNames.
Import PyStrFacts.

Lemma rfind_app (c : ascii) (a b : string) :
  PyStr.rfind c (a +:+ b)
  = match PyStr.rfind c b with
    | Some i => Some (String.length a + i)
    | None => PyStr.rfind c a
    end.
Proof.
  induction a as [|x a IH]; [rewrite app_empty; by destruct (PyStr.rfind c b)|].
  rewrite app_cons. cbn [PyStr.rfind String.length]. rewrite IH.
  by destruct (PyStr.rfind c b).
Qed.

Lemma substring_prefix (a b : string) :
  String.substring 0 (String.length a) (a +:+ b) = a.
Proof.
  induction a as [|x a IH]; [rewrite app_empty; by destruct b|].
  rewrite app_cons. cbn [String.length String.substring]. by rewrite IH.
Qed.

Lemma substring_skip (a b : string) (k : nat) :
  String.substring (String.length a) k (a +:+ b) = String.substring 0 k b.
Proof.
  induction a as [|x a IH]; [by rewrite app_empty|].
  rewrite app_cons. cbn [String.length String.substring]. apply IH.
Qed.

(** X26. A file named [stem.csv] is read by the loader, and its table is
    named [stem]; only when the stem is empty or made of dots alone is the
    table named by the whole file name. *)
Theorem X26_table_name_is_the_stem (stem : string) :
  PyStr.endswith ".csv" (stem +:+ ".csv") = true /\
  PyStr.splitext_root (stem +:+ ".csv")
  = if PyStr.all_dots stem then stem +:+ ".csv" else stem.
Proof.
  split.
  - unfold PyStr.endswith. rewrite length_app. cbn [String.length].
    apply andb_true_iff. split; [apply Nat.leb_le; lia|].
    replace (String.length stem + 4 - 4) with (String.length stem) by lia.
    by rewrite substring_skip.
  - unfold PyStr.splitext_root. rewrite rfind_app.
    change (PyStr.rfind "." ".csv") with (Some 0).
    cbv iota beta. by rewrite Nat.add_0_r, substring_prefix.
Qed.

End TableNames.
